(** * lurk: result taxonomy and configurable result reporting

    A shallow embedding of the C sources of the lurk library:

    - [result.h]  (the [enum result], [result_config_t], the [RETURN_*] macros),
    - [result.c]  as found next to [lurk.h]            (module [Lurk]),
    - the second copy of [result.c] kept in the tree   (module [Second]).

    C objects are modelled as follows.  A [result_t] is an [int], here a [Z].
    A [const char*] is an [option string] ([None] is [NULL]).  A pointer to a
    [result_config_t] is an [option positive] into a heap of records.  The
    two output streams carry the text written so far and the number of
    [fprintf] calls that pass before the stream breaks.  Functions with effects live in a small
    state monad whose outcomes are: the call returns, the process is aborted,
    or the behaviour is undefined in C. *)

From Stdlib Require Import ZArith String Ascii List Lia.
From stdpp Require Import gmap strings.

Local Open Scope Z_scope.

(** ** result.h: the result enumeration *)

Definition result_t := Z.

(** [true] and [false] of [stdbool.h], as integer constants. *)
Definition c_true : Z := 1.
Definition c_false : Z := 0.

Definition RESULT_INVALID_OBJECT : result_t := -2.
Definition RESULT_INTERNAL_ERROR : result_t := -3.
Definition RESULT_BAD_PARAM : result_t := -1.
Definition RESULT_SUCCESS : result_t := 0.
Definition RESULT_FAILURE : result_t := 1.
Definition RESULT_DONE : result_t := 2.
Definition RESULT_VALID_OBJECT : result_t := RESULT_SUCCESS.
Definition RESULT_TRUE : result_t := c_true.
Definition RESULT_FALSE : result_t := c_false.

(** ** result.c: the classification predicates *)

Definition is_success (result : result_t) : bool :=
  if result =? RESULT_SUCCESS then true else false.

Definition is_failure (result : result_t) : bool :=
  if result =? RESULT_FAILURE then true else false.

Definition is_valid_object (result : result_t) : bool :=
  if result =? RESULT_VALID_OBJECT then true else false.

Definition is_error (result : result_t) : bool := result <? 0.

(** The [switch] with three fall-through cases and a [default: break]. *)
Definition is_lurk_err (result : result_t) : bool :=
  if result =? RESULT_INVALID_OBJECT then true
  else if result =? RESULT_INTERNAL_ERROR then true
  else if result =? RESULT_BAD_PARAM then true
  else false.

Definition is_true (result : result_t) : bool :=
  if result =? RESULT_TRUE then true else false.

Definition is_false (result : result_t) : bool :=
  if result =? RESULT_FALSE then true else false.

(** ** The C library as the sources use it

    [fprintf] and [vfprintf] are used with the conversions [%d], [%x] and
    [%s], the flag [0] and a field width, and [%%].  [vformat] interprets a
    format string over a [va_list]; it answers [None] where C leaves the
    behaviour undefined (a missing or ill-typed argument, [%s] of [NULL], an
    unfinished directive) and for conversions outside this fragment. *)

Module Printf.

Inductive vararg : Type :=
| VInt (z : Z)
| VStr (s : option string).

Definition va_list := list vararg.

(** An [int] read back as [unsigned int], and a [Z] brought into [int]. *)
Definition to_unsigned (z : Z) : N := Z.to_N (z mod 2 ^ 32).
Definition to_signed (z : Z) : Z := (z + 2 ^ 31) mod 2 ^ 32 - 2 ^ 31.

Definition digit_char (d : N) : ascii :=
  ascii_of_N (if (d <? 10)%N then 48 + d else 87 + d).

(** Digits of [n] in [base], most significant first, at least one digit.
    [fuel] bounds the number of digits: 10 for a decimal [int], 8 for a
    hexadecimal [unsigned int]. *)
Fixpoint utoa (base : N) (fuel : nat) (n : N) (acc : string) : string :=
  match fuel with
  | O => acc
  | S fuel' =>
      let acc' := String (digit_char (n mod base)) acc in
      if (n / base =? 0)%N then acc' else utoa base fuel' (n / base) acc'
  end.

Fixpoint fill (n : nat) (c : ascii) : string :=
  match n with
  | O => EmptyString
  | S n' => String c (fill n' c)
  end.

Definition pad_left (c : ascii) (width : nat) (s : string) : string :=
  fill (width - String.length s) c +:+ s.

Definition conv_d (zero : bool) (width : nat) (z : Z) : string :=
  let v := to_signed z in
  let digits := utoa 10 10 (Z.to_N (Z.abs v)) EmptyString in
  let sign := if v <? 0 then "-"%string else EmptyString in
  if zero then sign +:+ pad_left "0" (width - String.length sign) digits
  else pad_left " " width (sign +:+ digits).

Definition conv_x (zero : bool) (width : nat) (z : Z) : string :=
  pad_left (if zero then "0" else " ")%char width
           (utoa 16 8 (to_unsigned z) EmptyString).

Definition conv_s (width : nat) (s : string) : string :=
  pad_left " " width s.

Definition is_digit (c : ascii) : bool :=
  ((48 <=? N_of_ascii c) && (N_of_ascii c <=? 57))%N.

Definition digit_val (c : ascii) : nat := N.to_nat (N_of_ascii c - 48).

(** Where the scanner is: in plain text, or inside a directive after the
    [%], with the [0] flag, the width read so far and whether a width digit
    was already seen. *)
Inductive scan : Type :=
| Text
| Directive (zero : bool) (width : nat) (in_width : bool).

Fixpoint vformat_from (st : scan) (fmt : string) (args : va_list)
  : option string :=
  match fmt with
  | EmptyString =>
      match st with
      | Text => Some EmptyString
      | Directive _ _ _ => None
      end
  | String c rest =>
      match st with
      | Text =>
          if Ascii.eqb c "%" then vformat_from (Directive false 0 false) rest args
          else option_map (String c) (vformat_from Text rest args)
      | Directive zero width in_width =>
          if Ascii.eqb c "%" then
            if zero || in_width then None
            else option_map (String "%") (vformat_from Text rest args)
          else if Ascii.eqb c "0" && negb in_width then
            vformat_from (Directive true width false) rest args
          else if is_digit c then
            vformat_from (Directive zero (10 * width + digit_val c) true) rest args
          else if Ascii.eqb c "d" then
            match args with
            | VInt z :: args' =>
                option_map (String.append (conv_d zero width z))
                           (vformat_from Text rest args')
            | _ => None
            end
          else if Ascii.eqb c "x" then
            match args with
            | VInt z :: args' =>
                option_map (String.append (conv_x zero width z))
                           (vformat_from Text rest args')
            | _ => None
            end
          else if Ascii.eqb c "s" then
            match args with
            | VStr (Some s) :: args' =>
                if zero then None
                else option_map (String.append (conv_s width s))
                                (vformat_from Text rest args')
            | _ => None
            end
          else None
      end
  end.

Definition vformat (fmt : string) (args : va_list) : option string :=
  vformat_from Text fmt args.

(** An output stream: the text written so far, and how many more calls of
    [fprintf] pass before the stream breaks ([None]: it never does).  On a
    broken stream a call that has characters to write fails: it leaves the
    text as it is and makes [fprintf] return a negative value.  A call that
    writes no character makes no write and cannot fail. *)
Record stream : Type := mkStream {
  written : string;
  writes_left : option nat;
}.

Definition stream_write (text : string) (st : stream) : option stream :=
  match writes_left st with
  | None => Some (mkStream (written st +:+ text) None)
  | Some (S k) => Some (mkStream (written st +:+ text) (Some k))
  | Some O =>
      match text with
      | EmptyString => Some st
      | String _ _ => None
      end
  end.

Definition EOF : Z := -1.

End Printf.

Import Printf.

(** ** result.h: the reporting configuration *)

(** A [result_log_fn*] is the address of [log_default] or of a function of
    the client program, numbered by [id]; likewise for [result_err_fn*]. *)
Inductive log_fn_ptr : Type :=
| Fn_log_default
| Fn_log_user (id : nat).

Inductive err_fn_ptr : Type :=
| Fn_err_default
| Fn_err_user (id : nat).

Record result_config_t : Type := mkConfig {
  projname : option string;
  prefix : option string;
  postfix : option string;
  do_log : bool;
  do_err : bool;
  log_fn : option log_fn_ptr;
  err_fn : option err_fn_ptr;
}.

(** ** The machine state *)

(** The fields of [struct tm] that the reporters print. *)
Record tm : Type := mkTm {
  tm_hour : Z;
  tm_min : Z;
  tm_sec : Z;
}.

Definition tm_zero : tm := mkTm 0 0 0.

(** What the client program and the C library own: the configuration records
    the client allocated, the two streams, and what [gmtime(&traw)] answers
    for the current [time(NULL)] ([None]: it answers [NULL]). *)
Record world : Type := mkWorld {
  heap : gmap positive result_config_t;
  stdout : stream;
  stderr : stream;
  gmtime_now : option tm;
}.

(** The library adds its file-static pointer [result_config]. *)
Record state : Type := mkState {
  result_config : option positive;
  env : world;
}.

Inductive FILE : Type := Stdout | Stderr.

Definition stream_of (f : FILE) (w : world) : stream :=
  match f with
  | Stdout => stdout w
  | Stderr => stderr w
  end.

Definition with_stream (f : FILE) (st : stream) (w : world) : world :=
  match f with
  | Stdout => mkWorld (heap w) st (stderr w) (gmtime_now w)
  | Stderr => mkWorld (heap w) (stdout w) st (gmtime_now w)
  end.

(** ** Outcomes and the state monad *)

Inductive outcome (St A : Type) : Type :=
| Returns (a : A) (s : St)
| Aborted (s : St)
| Undefined.

Arguments Returns {St A} a s.
Arguments Aborted {St A} s.
Arguments Undefined {St A}.

Definition M (A : Type) : Type := state -> outcome state A.

Definition ret {A : Type} (a : A) : M A := fun s => Returns a s.

Definition bind {A B : Type} (c : M A) (k : A -> M B) : M B :=
  fun s =>
    match c s with
    | Returns a s' => k a s'
    | Aborted s' => Aborted s'
    | Undefined => Undefined
    end.

Declare Scope lurk_scope.
Delimit Scope lurk_scope with lurk.
Notation "x <- c1 ;; c2" := (bind c1 (fun x => c2))
  (at level 100, c1 at next level, right associativity) : lurk_scope.
Notation "c1 ;; c2" := (bind c1 (fun _ => c2))
  (at level 100, right associativity) : lurk_scope.
Local Open Scope lurk_scope.

(** [abort()] of [stdlib.h]. *)
Definition abort {A : Type} : M A := fun s => Aborted s.

Definition undefined {A : Type} : M A := fun _ => Undefined.

(** A function of the client program runs on the [world]; it has no access
    to the file-static pointer. *)
Definition lift_world {A : Type} (f : world -> outcome world A) : M A :=
  fun s =>
    match f (env s) with
    | Returns a w => Returns a (mkState (result_config s) w)
    | Aborted w => Aborted (mkState (result_config s) w)
    | Undefined => Undefined
    end.

(** [p->field]: reading through a pointer that designates no record is
    undefined. *)
Definition load_config (p : positive) : M result_config_t :=
  fun s =>
    match heap (env s) !! p with
    | Some cfg => Returns cfg s
    | None => Undefined
    end.

(** [*p = cfg]. *)
Definition store_config (p : positive) (cfg : result_config_t) : M unit :=
  fun s =>
    match heap (env s) !! p with
    | Some _ =>
        Returns tt (mkState (result_config s)
                            (mkWorld (<[p := cfg]> (heap (env s)))
                                     (stdout (env s)) (stderr (env s))
                                     (gmtime_now (env s))))
    | None => Undefined
    end.

(** [fprintf(f, fmt, ...)]: the number of characters written, or a negative
    value when the write fails. *)
Definition fprintf (f : FILE) (fmt : string) (args : va_list) : M Z :=
  fun s =>
    match vformat fmt args with
    | None => Undefined
    | Some text =>
        match stream_write text (stream_of f (env s)) with
        | Some st => Returns (Z.of_nat (String.length text))
                             (mkState (result_config s) (with_stream f st (env s)))
        | None => Returns EOF s
        end
    end.

Definition vfprintf (f : FILE) (fmt : string) (args : va_list) : M Z :=
  fprintf f fmt args.

(** [get_time]: [t = {0}], overwritten when [gmtime] answers. *)
Definition get_time : M tm :=
  fun s =>
    let t := tm_zero in
    match gmtime_now (env s) with
    | Some tp => Returns tp s
    | None => Returns t s
    end.

Definition newline : string := String "010"%char EmptyString.

(** ** result.c *)

Module Lurk.

Section WithClient.

(** The functions of the client program that a configuration may point to.
    They receive what the C prototype gives them and act on the [world]. *)
Variable user_log_fn :
  nat -> result_t -> option string -> va_list -> world -> outcome world unit.
Variable user_err_fn :
  nat -> result_t -> option string -> option string -> option string ->
  va_list -> world -> outcome world unit.

(** The value of [__LINE__], as a string, where [lurk_get_defaults] checks
    its argument; it depends on the layout of the file that is compiled. *)
Variable guard_line : string.

Definition result_config_default : result_config_t :=
  {| projname := Some "lurk"%string;
     prefix := Some EmptyString;
     postfix := Some newline;
     do_log := true;
     do_err := true;
     log_fn := Some Fn_log_default;
     err_fn := Some Fn_err_default |}.

Definition get_config_projname : M (option string) :=
  fun s =>
    match result_config s with
    | None => ret (projname result_config_default) s
    | Some p =>
        (cfg <- load_config p ;;
         match projname cfg with
         | None => ret (projname result_config_default)
         | Some name => ret (Some name)
         end) s
    end.

Definition get_config_prefix : M (option string) :=
  fun s =>
    match result_config s with
    | None => ret (prefix result_config_default) s
    | Some p =>
        (cfg <- load_config p ;;
         match prefix cfg with
         | None => ret (prefix result_config_default)
         | Some pre => ret (Some pre)
         end) s
    end.

Definition get_config_postfix : M (option string) :=
  fun s =>
    match result_config s with
    | None => ret (postfix result_config_default) s
    | Some p =>
        (cfg <- load_config p ;;
         match postfix cfg with
         | None => ret (postfix result_config_default)
         | Some post => ret (Some post)
         end) s
    end.

Definition get_config_do_log : M bool :=
  fun s =>
    match result_config s with
    | None => ret (do_log result_config_default) s
    | Some p => (cfg <- load_config p ;; ret (do_log cfg)) s
    end.

Definition get_config_do_err : M bool :=
  fun s =>
    match result_config s with
    | None => ret (do_err result_config_default) s
    | Some p => (cfg <- load_config p ;; ret (do_err cfg)) s
    end.

Definition get_config_log_fn : M (option log_fn_ptr) :=
  fun s =>
    match result_config s with
    | None => ret (log_fn result_config_default) s
    | Some p =>
        (cfg <- load_config p ;;
         match log_fn cfg with
         | None => ret (log_fn result_config_default)
         | Some fn => ret (Some fn)
         end) s
    end.

Definition get_config_err_fn : M (option err_fn_ptr) :=
  fun s =>
    match result_config s with
    | None => ret (err_fn result_config_default) s
    | Some p =>
        (cfg <- load_config p ;;
         match err_fn cfg with
         | None => ret (err_fn result_config_default)
         | Some fn => ret (Some fn)
         end) s
    end.

Definition lurk_set_result_config (config : option positive) : M result_t :=
  fun s => Returns RESULT_SUCCESS (mkState config (env s)).

Definition log_default (result : result_t) (fmt : option string) (args : va_list)
  : M unit :=
  match fmt with
  | None => ret tt
  | Some fmt =>
      enabled <- get_config_do_log ;;
      if negb enabled then ret tt else
      projname <- get_config_projname ;;
      prefix <- get_config_prefix ;;
      postfix <- get_config_postfix ;;
      t <- get_time ;;
      n <- fprintf Stdout "%02d:%02d:%02d  %08x  [%s]  %s"
             [VInt (tm_hour t); VInt (tm_min t); VInt (tm_sec t);
              VInt result; VStr projname; VStr prefix] ;;
      if n <? 0 then abort else
      n <- vfprintf Stdout fmt args ;;
      if n <? 0 then abort else
      n <- fprintf Stdout "%s" [VStr postfix] ;;
      if n <? 0 then abort else ret tt
  end.

Definition err_default (result : result_t) (caller loc : option string)
  (fmt : option string) (args : va_list) : M unit :=
  match fmt with
  | None => ret tt
  | Some fmt =>
      enabled <- get_config_do_err ;;
      if negb enabled then ret tt else
      let caller := match caller with None => Some "(unknown)"%string | Some _ => caller end in
      let loc := match loc with None => Some "???"%string | Some _ => loc end in
      t <- get_time ;;
      projname <- get_config_projname ;;
      prefix <- get_config_prefix ;;
      postfix <- get_config_postfix ;;
      n <- fprintf Stderr "%02d:%02d:%02d  %08x  [%s:%s.%s]  %s"
             [VInt (tm_hour t); VInt (tm_min t); VInt (tm_sec t);
              VInt result; VStr projname; VStr caller; VStr loc; VStr prefix] ;;
      if n <? 0 then abort else
      n <- vfprintf Stderr fmt args ;;
      if n <? 0 then abort else
      n <- fprintf Stderr "%s" [VStr postfix] ;;
      if n <? 0 then abort else ret tt
  end.

(** The calls through the function pointers [log_fn] and [err_fn]; a call
    through [NULL] is undefined. *)
Definition call_log_fn (fn : option log_fn_ptr) (result : result_t)
  (fmt : option string) (args : va_list) : M unit :=
  match fn with
  | None => undefined
  | Some Fn_log_default => log_default result fmt args
  | Some (Fn_log_user id) => lift_world (user_log_fn id result fmt args)
  end.

Definition call_err_fn (fn : option err_fn_ptr) (result : result_t)
  (caller loc : option string) (fmt : option string) (args : va_list) : M unit :=
  match fn with
  | None => undefined
  | Some Fn_err_default => err_default result caller loc fmt args
  | Some (Fn_err_user id) => lift_world (user_err_fn id result caller loc fmt args)
  end.

Definition lurk_log (result : result_t) (fmt : option string) (args : va_list)
  : M result_t :=
  match fmt with
  | None => ret result
  | Some _ =>
      enabled <- get_config_do_log ;;
      if negb enabled then ret result else
      log_fn <- get_config_log_fn ;;
      call_log_fn log_fn result fmt args ;;
      ret result
  end.

Definition lurk_err (result : result_t) (caller loc : option string)
  (fmt : option string) (args : va_list) : M result_t :=
  match fmt with
  | None => ret result
  | Some _ =>
      enabled <- get_config_do_err ;;
      if negb enabled then ret result else
      err_fn <- get_config_err_fn ;;
      call_err_fn err_fn result caller loc fmt args ;;
      ret result
  end.

(** [RETURN_BAD_PARAM_NULL(param)] of result.h, with [LURK_ERROR_CALL]
    standing for [lurk_err] ([LURK_NO_CALL_RETURN_ERROR] not defined);
    [func] is [__func__], [line] is [LURK_LINE_STRING], and the message is
    the concatenation of the three string literals. *)
Definition RETURN_BAD_PARAM_NULL (func line param : string) : M result_t :=
  lurk_err RESULT_BAD_PARAM (Some func) (Some line)
           (Some ("Bad parameter [" +:+ param +:+ "]. Must not be [NULL]")) [].

(** The other [RETURN_*] macros of result.h, in the same way: [func] and
    [line] stand for [__func__] and [LURK_LINE_STRING], the names of
    parameters, objects and members for their stringized arguments. *)
Definition RETURN_TRACE_ERROR (func line : string) (result : result_t) : M result_t :=
  lurk_err result (Some func) (Some line) (Some "Callback trace."%string) [].

Definition RETURN_PASS_ERROR (func line : string) (result pass : result_t)
  : M result_t :=
  lurk_err result (Some func) (Some line)
           (Some "Callback trace, passing: [%08x]."%string) [VInt pass].

Definition RETURN_BAD_PARAM (func line param : string) : M result_t :=
  lurk_err RESULT_BAD_PARAM (Some func) (Some line)
           (Some ("Bad parameter [" +:+ param +:+ "].")) [].

Definition RETURN_INVALID_OBJECT (func line obj : string) : M result_t :=
  lurk_err RESULT_INVALID_OBJECT (Some func) (Some line)
           (Some ("Invalid object [" +:+ obj +:+ "].")) [].

Definition RETURN_INVALID_OBJECT_MEMBER (func line obj member : string) : M result_t :=
  lurk_err RESULT_INVALID_OBJECT (Some func) (Some line)
           (Some ("Invalid object member [" +:+ obj +:+ "." +:+ member +:+ "].")) [].

Definition RETURN_INVALID_OBJECT_MEMBERS (func line obj members : string)
  : M result_t :=
  lurk_err RESULT_INVALID_OBJECT (Some func) (Some line)
           (Some ("Invalid object member [" +:+ obj +:+ ".(" +:+ members +:+ ")].")) [].

Definition RETURN_INTERNAL_ERROR (func line : string) : M result_t :=
  lurk_err RESULT_INTERNAL_ERROR (Some func) (Some line)
           (Some "Internal error."%string) [].

Definition RETURN_ERROR (func line : string) (result : result_t) (err : option string)
  : M result_t :=
  lurk_err result (Some func) (Some line) err [].

Definition RETURN_ERROR_FMT (func line : string) (result : result_t)
  (err : option string) (args : va_list) : M result_t :=
  lurk_err result (Some func) (Some line) err args.

(** The guard macros are statements that may leave the enclosing function:
    [rest] is what follows the macro in that function, [check] the call
    [fn(obj)] or [fn(memb)]. *)
Definition VALIDATE_OBJECT (func line : string) (check : M result_t) (obj : string)
  (rest : M result_t) : M result_t :=
  v <- check ;;
  if negb (is_valid_object v) then RETURN_INVALID_OBJECT func line obj else rest.

Definition VALIDATE_OBJECT_MEMBER (func line : string) (check : M result_t)
  (obj memb : string) (rest : M result_t) : M result_t :=
  v <- check ;;
  if negb (is_valid_object v) then RETURN_INVALID_OBJECT_MEMBER func line obj memb
  else rest.

Definition NULL_GUARD {A : Type} (func line : string) (ptr : option A) (name : string)
  (rest : M result_t) : M result_t :=
  match ptr with
  | None => RETURN_BAD_PARAM_NULL func line name
  | Some _ => rest
  end.

(** [guard_line] is what [LURK_LINE_STRING] expands to at the guard: the
    number of that line in result.c. *)
Definition lurk_get_defaults (config : option positive) : M result_t :=
  match config with
  | None => RETURN_BAD_PARAM_NULL "lurk_get_defaults" guard_line "config"
  | Some p =>
      store_config p result_config_default ;;
      ret RESULT_SUCCESS
  end.

End WithClient.

End Lurk.

(** ** The second copy of result.c

    An earlier state of result.c: the handlers return a [result_t], the
    entry points return their own status, and the reporters know no prefix
    or postfix.  It goes with an earlier result.h, not with the one in the
    tree, whose handler types return nothing. *)

Module Second.

Section WithClient.

Variable user_log_fn :
  nat -> result_t -> option string -> va_list -> world -> outcome world result_t.
Variable user_err_fn :
  nat -> result_t -> option string -> option string -> option string ->
  va_list -> world -> outcome world result_t.

(** [.prefix] and [.postfix] have no initialiser: they are null pointers. *)
Definition result_config_default : result_config_t :=
  {| projname := Some "lurk"%string;
     prefix := None;
     postfix := None;
     do_log := true;
     do_err := true;
     log_fn := Some Fn_log_default;
     err_fn := Some Fn_err_default |}.

Definition get_config_projname : M (option string) :=
  fun s =>
    match result_config s with
    | None => ret (projname result_config_default) s
    | Some p =>
        (cfg <- load_config p ;;
         match projname cfg with
         | None => ret (projname result_config_default)
         | Some name => ret (Some name)
         end) s
    end.

Definition get_config_do_log : M bool :=
  fun s =>
    match result_config s with
    | None => ret (do_log result_config_default) s
    | Some p => (cfg <- load_config p ;; ret (do_log cfg)) s
    end.

Definition get_config_do_err : M bool :=
  fun s =>
    match result_config s with
    | None => ret (do_err result_config_default) s
    | Some p => (cfg <- load_config p ;; ret (do_err cfg)) s
    end.

Definition get_config_log_fn : M (option log_fn_ptr) :=
  fun s =>
    match result_config s with
    | None => ret (log_fn result_config_default) s
    | Some p =>
        (cfg <- load_config p ;;
         match log_fn cfg with
         | None => ret (log_fn result_config_default)
         | Some fn => ret (Some fn)
         end) s
    end.

Definition get_config_err_fn : M (option err_fn_ptr) :=
  fun s =>
    match result_config s with
    | None => ret (err_fn result_config_default) s
    | Some p =>
        (cfg <- load_config p ;;
         match err_fn cfg with
         | None => ret (err_fn result_config_default)
         | Some fn => ret (Some fn)
         end) s
    end.

Definition is_err (result : result_t) : bool := result <? 0.

Definition is_lurk_err (result : result_t) : bool :=
  if result =? RESULT_INVALID_OBJECT then true
  else if result =? RESULT_INTERNAL_ERROR then true
  else if result =? RESULT_BAD_PARAM then true
  else false.

Definition lurk_set_result_config (config : option positive) : M result_t :=
  fun s => Returns RESULT_SUCCESS (mkState config (env s)).

Definition log_default (result : result_t) (fmt : option string) (args : va_list)
  : M result_t :=
  match fmt with
  | None => ret RESULT_BAD_PARAM
  | Some fmt =>
      enabled <- get_config_do_log ;;
      if negb enabled then ret result else
      projname <- get_config_projname ;;
      t <- get_time ;;
      n <- fprintf Stdout "%02d:%02d:%02d  %08x  [%s]  "
             [VInt (tm_hour t); VInt (tm_min t); VInt (tm_sec t);
              VInt result; VStr projname] ;;
      if n <? 0 then abort else
      n <- vfprintf Stdout fmt args ;;
      if n <? 0 then abort else
      n <- fprintf Stdout newline [] ;;
      if n <? 0 then abort else ret result
  end.

Definition err_default (result : result_t) (caller loc : option string)
  (fmt : option string) (args : va_list) : M result_t :=
  match fmt with
  | None => ret RESULT_BAD_PARAM
  | Some fmt =>
      enabled <- get_config_do_err ;;
      if negb enabled then ret result else
      let caller := match caller with None => Some "(unknown)"%string | Some _ => caller end in
      let loc := match loc with None => Some "???"%string | Some _ => loc end in
      t <- get_time ;;
      projname <- get_config_projname ;;
      n <- fprintf Stderr "%02d:%02d:%02d  %08x  [%s:%s.%s]  "
             [VInt (tm_hour t); VInt (tm_min t); VInt (tm_sec t);
              VInt result; VStr projname; VStr caller; VStr loc] ;;
      if n <? 0 then abort else
      n <- vfprintf Stderr fmt args ;;
      if n <? 0 then abort else
      n <- fprintf Stderr newline [] ;;
      if n <? 0 then abort else ret result
  end.

Definition call_log_fn (fn : option log_fn_ptr) (result : result_t)
  (fmt : option string) (args : va_list) : M result_t :=
  match fn with
  | None => undefined
  | Some Fn_log_default => log_default result fmt args
  | Some (Fn_log_user id) => lift_world (user_log_fn id result fmt args)
  end.

Definition call_err_fn (fn : option err_fn_ptr) (result : result_t)
  (caller loc : option string) (fmt : option string) (args : va_list) : M result_t :=
  match fn with
  | None => undefined
  | Some Fn_err_default => err_default result caller loc fmt args
  | Some (Fn_err_user id) => lift_world (user_err_fn id result caller loc fmt args)
  end.

(** [result] is overwritten by what the handler returns and then dropped:
    the function ends in [return RESULT_SUCCESS]. *)
Definition lurk_log (result : result_t) (fmt : option string) (args : va_list)
  : M result_t :=
  match fmt with
  | None => ret RESULT_BAD_PARAM
  | Some _ =>
      enabled <- get_config_do_log ;;
      if negb enabled then ret RESULT_SUCCESS else
      log_fn <- get_config_log_fn ;;
      result <- call_log_fn log_fn result fmt args ;;
      ret RESULT_SUCCESS
  end.

Definition lurk_err (result : result_t) (caller loc : option string)
  (fmt : option string) (args : va_list) : M result_t :=
  match fmt with
  | None => ret RESULT_BAD_PARAM
  | Some _ =>
      enabled <- get_config_do_err ;;
      if negb enabled then ret RESULT_SUCCESS else
      err_fn <- get_config_err_fn ;;
      result <- call_err_fn err_fn result caller loc fmt args ;;
      ret result
  end.

End WithClient.

End Second.

(** ** The output format of the specification

    Written from the specification's description of a line: the time as
    three groups of two decimal digits, the result as eight hexadecimal
    digits of its 32-bit pattern, the tag in brackets, then prefix, message
    and postfix, the groups separated by two spaces. *)

(** Exactly [k] digits of [n] in [base], most significant first. *)
Fixpoint fixed_digits (base : N) (k : nat) (n : N) (acc : string) : string :=
  match k with
  | O => acc
  | S k' => fixed_digits base k' (n / base) (String (digit_char (n mod base)) acc)
  end.

Definition two_digits (z : Z) : string := fixed_digits 10 2 (Z.to_N z) EmptyString.

Definition hex8 (r : result_t) : string :=
  fixed_digits 16 8 (Z.to_N (r mod 2 ^ 32)) EmptyString.

Definition hh_mm_ss (t : tm) : string :=
  two_digits (tm_hour t) +:+ ":" +:+ two_digits (tm_min t) +:+ ":" +:+
  two_digits (tm_sec t).

Definition log_line (t : tm) (r : result_t) (project pre msg post : string) : string :=
  hh_mm_ss t +:+ "  " +:+ hex8 r +:+ "  [" +:+ project +:+ "]  " +:+
  pre +:+ msg +:+ post.

Definition err_line (t : tm) (r : result_t) (project caller loc pre msg post : string)
  : string :=
  hh_mm_ss t +:+ "  " +:+ hex8 r +:+ "  [" +:+ project +:+ ":" +:+ caller +:+
  "." +:+ loc +:+ "]  " +:+ pre +:+ msg +:+ post.

(** ** Vocabulary for the statements *)

(** What [gmtime] delivers: hours, minutes and seconds in their ranges. *)
Definition tm_valid (t : tm) : Prop :=
  0 <= tm_hour t <= 23 /\ 0 <= tm_min t <= 59 /\ 0 <= tm_sec t <= 60.

Definition current_time (s : state) : tm :=
  match gmtime_now (env s) with
  | Some t => t
  | None => tm_zero
  end.

(** The stream accepts [n] more writes. *)
Definition can_write (n : nat) (st : stream) : Prop :=
  match writes_left st with
  | None => True
  | Some k => (n <= k)%nat
  end.

(** The stream after [n] successful writes that add up to [text]. *)
Definition stream_after (n : nat) (text : string) (st : stream) : stream :=
  mkStream (written st +:+ text)
           (option_map (fun k => (k - n)%nat) (writes_left st)).

Definition print (f : FILE) (n : nat) (text : string) (s : state) : state :=
  mkState (result_config s)
          (with_stream f (stream_after n text (stream_of f (env s))) (env s)).

(** The override in force: none, or the record the static pointer designates. *)
Inductive installed (s : state) : option result_config_t -> Prop :=
| installed_none :
    result_config s = None -> installed s None
| installed_some (p : positive) (cfg : result_config_t) :
    result_config s = Some p -> heap (env s) !! p = Some cfg ->
    installed s (Some cfg).

(** A pointer field of the override, or the default's when it is null. *)
Definition or_default {A : Type} (field : option A) (dflt : option A) : option A :=
  match field with
  | Some v => Some v
  | None => dflt
  end.

(** The configuration in effect under the override [o]: pointer fields fall
    back one by one, the two flags are taken from the override as they are. *)
Definition resolved (dflt : result_config_t) (o : option result_config_t)
  : result_config_t :=
  match o with
  | None => dflt
  | Some cfg =>
      {| projname := or_default (projname cfg) (projname dflt);
         prefix := or_default (prefix cfg) (prefix dflt);
         postfix := or_default (postfix cfg) (postfix dflt);
         do_log := do_log cfg;
         do_err := do_err cfg;
         log_fn := or_default (log_fn cfg) (log_fn dflt);
         err_fn := or_default (err_fn cfg) (err_fn dflt) |}
  end.

Definition text (o : option string) : string := default EmptyString o.

(** What can be seen of a call from outside: how it ended, what it returned
    and the text on the two streams. *)
Definition observe {A : Type} (o : outcome state A) : outcome (string * string) A :=
  match o with
  | Returns a s => Returns a (written (stdout (env s)), written (stderr (env s)))
  | Aborted s => Aborted (written (stdout (env s)), written (stderr (env s)))
  | Undefined => Undefined
  end.

(** A call leaves the static pointer [result_config] as it found it. *)
Definition keeps_pointer {A : Type} (c : M A) : Prop :=
  forall s,
    match c s with
    | Returns _ s' => result_config s' = result_config s
    | Aborted s' => result_config s' = result_config s
    | Undefined => True
    end.

(** Whenever the call returns, it returns [r]. *)
Definition returns_only {A : Type} (r : A) (c : M A) : Prop :=
  forall s,
    match c s with
    | Returns a _ => a = r
    | _ => True
    end.

(** Two states that differ at most in their configuration records. *)
Definition same_streams (s1 s2 : state) : Prop :=
  result_config s1 = result_config s2 /\
  stdout (env s1) = stdout (env s2) /\
  stderr (env s1) = stderr (env s2) /\
  gmtime_now (env s1) = gmtime_now (env s2).

Definition alike {A : Type} (o1 o2 : outcome state A) : Prop :=
  match o1, o2 with
  | Returns a s1, Returns b s2 => a = b /\ same_streams s1 s2
  | Aborted s1, Aborted s2 => same_streams s1 s2
  | Undefined, Undefined => True
  | _, _ => False
  end.

(** A computation that does not look at the configuration records. *)
Definition heap_blind {A : Type} (c : M A) : Prop :=
  forall s1 s2, same_streams s1 s2 -> alike (c s1) (c s2).

(** A process with the streams and the clock of [w] in which no
    configuration record exists and none was installed. *)
Definition never_configured (w : world) : state :=
  mkState None (mkWorld ∅ (stdout w) (stderr w) (gmtime_now w)).

(** ** Sample processes *)

Definition open_stream : stream := mkStream EmptyString None.

Definition world0 : world :=
  mkWorld ∅ open_stream open_stream (Some (mkTm 12 34 56)).

(** A process at start: [result_config] is [NULL]. *)
Definition state0 : state := mkState None world0.

(** The C initialiser [{ .projname = name }]: every other member is zero. *)
Definition config_only_projname (name : string) : result_config_t :=
  {| projname := Some name;
     prefix := None;
     postfix := None;
     do_log := false;
     do_err := false;
     log_fn := None;
     err_fn := None |}.

(** A client that installed [{ .projname = "app" }]. *)
Definition state_app : state :=
  mkState (Some 1%positive)
          (mkWorld {[ 1%positive := config_only_projname "app" ]}
                   open_stream open_stream (Some (mkTm 12 34 56))).

(** A client that installed a prefix and a postfix on top of the defaults of
    [Lurk]. *)
Definition config_decorated : result_config_t :=
  {| projname := Some "app"%string;
     prefix := Some ">> "%string;
     postfix := Some (" <<" +:+ newline);
     do_log := true;
     do_err := true;
     log_fn := None;
     err_fn := None |}.

Definition state_decorated : state :=
  mkState (Some 1%positive)
          (mkWorld {[ 1%positive := config_decorated ]}
                   open_stream open_stream (Some (mkTm 12 34 56))).

(** Client handlers that return at once. *)
Definition quiet_log_fn (id : nat) (r : result_t) (fmt : option string)
  (args : va_list) (w : world) : outcome world unit := Returns tt w.

Definition quiet_err_fn (id : nat) (r : result_t) (caller loc fmt : option string)
  (args : va_list) (w : world) : outcome world unit := Returns tt w.

(** Handlers for the second copy, which answer [RESULT_DONE]. *)
Definition done_log_fn (id : nat) (r : result_t) (fmt : option string)
  (args : va_list) (w : world) : outcome world result_t := Returns RESULT_DONE w.


(** ** Vocabulary for the further properties *)

(** The text holds no conversion: no ['%'] occurs in it. *)
Fixpoint no_percent (s : string) : bool :=
  match s with
  | EmptyString => true
  | String c rest => negb (Ascii.eqb c "%") && no_percent rest
  end.

(** Reading digits back: the value of a digit character, and of a text of
    digits in [base], most significant first. *)
Definition digit_value (c : ascii) : N :=
  let n := N_of_ascii c in
  if (n <? 58)%N then (n - 48)%N else (n - 87)%N.

Fixpoint digits_value (base : N) (s : string) (acc : N) : N :=
  match s with
  | EmptyString => acc
  | String c rest => digits_value base rest (acc * base + digit_value c)%N
  end.

(** A call that only reads: it returns in the state it started in, or its
    behaviour is undefined. *)
Definition reads_only {A : Type} (c : M A) : Prop :=
  forall s, c s = Undefined \/ exists a, c s = Returns a s.

(** A call leaves one part of the world as it found it, whether it returns
    or aborts. *)
Definition leaves {B A : Type} (part : world -> B) (c : M A) : Prop :=
  forall s,
    match c s with
    | Returns _ s' => part (env s') = part (env s)
    | Aborted s' => part (env s') = part (env s)
    | Undefined => True
    end.

(** How a call ended and in which state, without the value it returned. *)
Definition ending {A : Type} (o : outcome state A) : outcome state unit :=
  match o with
  | Returns _ s => Returns tt s
  | Aborted s => Aborted s
  | Undefined => Undefined
  end.

(** What a call through a client function amounts to for the caller, which
    then returns [r]. *)
Definition handled {A : Type} (s : state) (r : result_t) (o : outcome world A)
  : outcome state result_t :=
  match o with
  | Returns _ w => Returns r (mkState (result_config s) w)
  | Aborted w => Aborted (mkState (result_config s) w)
  | Undefined => Undefined
  end.

(** A client with its own handlers on both channels. *)
Definition config_handlers : result_config_t :=
  {| projname := None;
     prefix := None;
     postfix := None;
     do_log := true;
     do_err := true;
     log_fn := Some (Fn_log_user 0);
     err_fn := Some (Fn_err_user 0) |}.

Definition state_handlers : state :=
  mkState (Some 1%positive)
          (mkWorld {[ 1%positive := config_handlers ]}
                   open_stream open_stream (Some (mkTm 12 34 56))).

(** Client handlers that write the raw format to the stream of their
    channel and have undefined behaviour on a null format. *)
Definition echo_log_fn (id : nat) (r : result_t) (fmt : option string)
  (args : va_list) (w : world) : outcome world unit :=
  match fmt with
  | Some f =>
      Returns tt (with_stream Stdout (stream_after 1 f (stream_of Stdout w)) w)
  | None => Undefined
  end.

Definition echo_err_fn (id : nat) (r : result_t) (caller loc fmt : option string)
  (args : va_list) (w : world) : outcome world unit :=
  match fmt with
  | Some f =>
      Returns tt (with_stream Stderr (stream_after 1 f (stream_of Stderr w)) w)
  | None => Undefined
  end.

(** The same handlers, harmless on a null format. *)
Definition lenient_log_fn (id : nat) (r : result_t) (fmt : option string)
  (args : va_list) (w : world) : outcome world unit :=
  match fmt with
  | Some f => echo_log_fn id r fmt args w
  | None => Returns tt w
  end.

Definition lenient_err_fn (id : nat) (r : result_t) (caller loc fmt : option string)
  (args : va_list) (w : world) : outcome world unit :=
  match fmt with
  | Some f => echo_err_fn id r caller loc fmt args w
  | None => Returns tt w
  end.

(** A process whose [gmtime] fails. *)
Definition state_no_clock : state :=
  mkState None (mkWorld ∅ open_stream open_stream None).




(** * Properties *)

(** ** The classification predicates *)

(** C7: [is_lurk_err] holds of exactly the three named errors -2, -3 and -1,
    and of no other integer. *)
Theorem is_lurk_err_named_errors :
  RESULT_INVALID_OBJECT = -2 /\ RESULT_INTERNAL_ERROR = -3 /\ RESULT_BAD_PARAM = -1 /\
  forall r : result_t,
    (is_lurk_err r = true <->
     r = RESULT_INVALID_OBJECT \/ r = RESULT_INTERNAL_ERROR \/ r = RESULT_BAD_PARAM) /\
    (is_lurk_err r = false <->
     r <> RESULT_INVALID_OBJECT /\ r <> RESULT_INTERNAL_ERROR /\ r <> RESULT_BAD_PARAM) /\
    Second.is_lurk_err r = is_lurk_err r.
Proof.
  repeat (split; [reflexivity|]).
  intros r. unfold is_lurk_err.
  destruct (Z.eqb_spec r RESULT_INVALID_OBJECT) as [->|H2].
  { repeat split; auto; try discriminate. intros (H & _). now contradiction H. }
  destruct (Z.eqb_spec r RESULT_INTERNAL_ERROR) as [->|H3].
  { repeat split; auto; try discriminate. intros (_ & H & _). now contradiction H. }
  destruct (Z.eqb_spec r RESULT_BAD_PARAM) as [->|H1].
  { repeat split; auto; try discriminate. intros (_ & _ & H). now contradiction H. }
  repeat split; auto; try discriminate.
  - intros [?|[?|?]]; contradiction.
  - unfold Second.is_lurk_err.
    destruct (Z.eqb_spec r RESULT_INVALID_OBJECT); [contradiction|].
    destruct (Z.eqb_spec r RESULT_INTERNAL_ERROR); [contradiction|].
    now destruct (Z.eqb_spec r RESULT_BAD_PARAM).
Qed.

(** C9: the numeric collisions of the enumeration make [is_false],
    [is_success] and [is_valid_object] one predicate, and [is_true] and
    [is_failure] one predicate. *)
Theorem colliding_predicates_coincide :
  RESULT_FALSE = RESULT_SUCCESS /\ RESULT_SUCCESS = RESULT_VALID_OBJECT /\
  RESULT_TRUE = RESULT_FAILURE /\
  forall r : result_t,
    is_false r = is_success r /\ is_success r = is_valid_object r /\
    is_true r = is_failure r.
Proof.
  repeat split; reflexivity.
Qed.

(** ** The formatting functions *)

Section Digits.

Lemma append_assoc (a b c : string) : (a +:+ b) +:+ c = a +:+ (b +:+ c).
Proof.
  induction a as [|x a IH]; [reflexivity|].
  change (String x ((a +:+ b) +:+ c) = String x (a +:+ (b +:+ c))).
  now rewrite IH.
Qed.

Lemma append_empty_r (a : string) : a +:+ EmptyString = a.
Proof.
  induction a as [|x a IH]; [reflexivity|].
  change (String x (a +:+ EmptyString) = String x a). now rewrite IH.
Qed.

Lemma length_String (c : ascii) (a : string) :
  String.length (String c a) = S (String.length a).
Proof. reflexivity. Qed.

Lemma fill_zero_digits (base : N) (k : nat) (acc : string) :
  (2 <= base)%N ->
  fixed_digits base k 0 acc = fill k "0" +:+ acc.
Proof.
  intros Hb. revert acc.
  induction k as [|k IH]; intros acc; [reflexivity|].
  cbn [fixed_digits fill].
  rewrite N.Div0.div_0_l, N.Div0.mod_0_l.
  rewrite IH.
  change (digit_char 0) with "0"%char.
  clear IH. induction k as [|k IH]; [reflexivity|].
  cbn [fill].
  change (String "0" (fill k "0" +:+ String "0" acc) =
          String "0" (String "0" (fill k "0") +:+ acc)).
  f_equal. exact IH.
Qed.

Lemma utoa_fixed_digits (base : N) (k : nat) :
  (2 <= base)%N ->
  forall (fuel : nat) (n : N) (acc : string),
    (1 <= k <= fuel)%nat -> (n < base ^ N.of_nat k)%N ->
    exists z : nat,
      fixed_digits base k n acc = fill z "0" +:+ utoa base fuel n acc /\
      (String.length (utoa base fuel n acc) + z = k + String.length acc)%nat.
Proof.
  intros Hb. induction k as [|k IH]; intros fuel n acc Hk Hn; [lia|].
  destruct fuel as [|fuel]; [lia|].
  cbn [fixed_digits utoa].
  destruct (N.eqb_spec (n / base) 0) as [Hq|Hq].
  - rewrite Hq. exists k. split.
    + now apply fill_zero_digits.
    + rewrite length_String. clear. lia.
  - assert (Hlt : (n / base < base ^ N.of_nat k)%N).
    { apply N.Div0.div_lt_upper_bound.
      replace (N.of_nat (S k)) with (N.succ (N.of_nat k)) in Hn by lia.
      now rewrite N.pow_succ_r' in Hn. }
    assert (1 <= k)%nat.
    { destruct k; [|lia]. exfalso. apply Hq. now apply N.lt_1_r. }
    destruct (IH fuel (n / base)%N (String (digit_char (n mod base)) acc))
      as [z [Hz Hlen]]; [lia | exact Hlt |].
    exists z. split; [exact Hz|].
    rewrite length_String in Hlen. clear - Hlen. lia.
Qed.

Lemma pad_left_utoa (base : N) (k fuel : nat) (n : N) :
  (2 <= base)%N -> (1 <= k <= fuel)%nat -> (n < base ^ N.of_nat k)%N ->
  pad_left "0" k (utoa base fuel n EmptyString) = fixed_digits base k n EmptyString.
Proof.
  intros Hb Hk Hn.
  destruct (utoa_fixed_digits base k Hb fuel n EmptyString Hk Hn) as [z [Hz Hlen]].
  unfold pad_left. rewrite Hz. cbn [String.length] in Hlen.
  replace (k - String.length (utoa base fuel n EmptyString))%nat with z by lia.
  reflexivity.
Qed.

Lemma conv_x_hex8 (r : result_t) : conv_x true 8 r = hex8 r.
Proof.
  unfold conv_x, hex8, to_unsigned.
  apply pad_left_utoa; [lia | lia |].
  assert (0 <= r mod 2 ^ 32 < 2 ^ 32) by (apply Z.mod_pos_bound; lia).
  change (16 ^ N.of_nat 8)%N with (Z.to_N (2 ^ 32)). lia.
Qed.

Lemma conv_d_two_digits (z : Z) : 0 <= z < 100 -> conv_d true 2 z = two_digits z.
Proof.
  intros Hz. unfold conv_d, two_digits.
  assert (Hs : to_signed z = z).
  { unfold to_signed. rewrite Z.mod_small; lia. }
  rewrite Hs.
  destruct (Z.ltb_spec z 0) as [?|_]; [lia|].
  rewrite Z.abs_eq by lia.
  change (EmptyString +:+ ?x) with x.
  apply pad_left_utoa; [lia | cbn; lia |].
  change (10 ^ N.of_nat 2)%N with 100%N. lia.
Qed.

Lemma hex8_length (r : result_t) : String.length (hex8 r) = 8%nat.
Proof.
  unfold hex8. generalize (Z.to_N (r mod 2 ^ 32)). intros n.
  assert (H : forall k m acc,
             String.length (fixed_digits 16 k m acc) = (k + String.length acc)%nat).
  { induction k as [|k IH]; intros m acc; [reflexivity|].
    cbn [fixed_digits]. rewrite IH, length_String. lia. }
  now rewrite H.
Qed.

End Digits.

Section Formats.

Lemma conv_s_plain (s : string) : conv_s 0 s = s.
Proof. reflexivity. Qed.

Lemma vformat_log_header (t : tm) (r : result_t) (proj pre : string) :
  tm_valid t ->
  vformat "%02d:%02d:%02d  %08x  [%s]  %s"
          [VInt (tm_hour t); VInt (tm_min t); VInt (tm_sec t);
           VInt r; VStr (Some proj); VStr (Some pre)]
  = Some (hh_mm_ss t +:+ "  " +:+ hex8 r +:+ "  [" +:+ proj +:+ "]  " +:+ pre).
Proof.
  intros (Hh & Hm & Hs).
  transitivity
    (Some (conv_d true 2 (tm_hour t) +:+ ":" +:+ conv_d true 2 (tm_min t) +:+ ":" +:+
           conv_d true 2 (tm_sec t) +:+ "  " +:+ conv_x true 8 r +:+ "  [" +:+
           conv_s 0 proj +:+ "]  " +:+ conv_s 0 pre +:+ EmptyString)).
  { reflexivity. }
  rewrite !conv_d_two_digits by lia.
  rewrite conv_x_hex8, !conv_s_plain, append_empty_r.
  unfold hh_mm_ss. now rewrite !append_assoc.
Qed.

Lemma vformat_err_header (t : tm) (r : result_t) (proj caller loc pre : string) :
  tm_valid t ->
  vformat "%02d:%02d:%02d  %08x  [%s:%s.%s]  %s"
          [VInt (tm_hour t); VInt (tm_min t); VInt (tm_sec t);
           VInt r; VStr (Some proj); VStr (Some caller); VStr (Some loc);
           VStr (Some pre)]
  = Some (hh_mm_ss t +:+ "  " +:+ hex8 r +:+ "  [" +:+ proj +:+ ":" +:+ caller +:+
          "." +:+ loc +:+ "]  " +:+ pre).
Proof.
  intros (Hh & Hm & Hs).
  transitivity
    (Some (conv_d true 2 (tm_hour t) +:+ ":" +:+ conv_d true 2 (tm_min t) +:+ ":" +:+
           conv_d true 2 (tm_sec t) +:+ "  " +:+ conv_x true 8 r +:+ "  [" +:+
           conv_s 0 proj +:+ ":" +:+ conv_s 0 caller +:+ "." +:+ conv_s 0 loc +:+
           "]  " +:+ conv_s 0 pre +:+ EmptyString)).
  { reflexivity. }
  rewrite !conv_d_two_digits by lia.
  rewrite conv_x_hex8, !conv_s_plain, append_empty_r.
  unfold hh_mm_ss. now rewrite !append_assoc.
Qed.

Lemma vformat_postfix (post : string) : vformat "%s" [VStr (Some post)] = Some post.
Proof.
  transitivity (Some (conv_s 0 post +:+ EmptyString)); [reflexivity|].
  now rewrite conv_s_plain, append_empty_r.
Qed.

Lemma vformat_newline : vformat newline [] = Some newline.
Proof. reflexivity. Qed.

End Formats.

Section SecondCopyFormats.

Lemma vformat_second_log_header (t : tm) (r : result_t) (proj : string) :
  tm_valid t ->
  vformat "%02d:%02d:%02d  %08x  [%s]  "
          [VInt (tm_hour t); VInt (tm_min t); VInt (tm_sec t); VInt r; VStr (Some proj)]
  = Some (hh_mm_ss t +:+ "  " +:+ hex8 r +:+ "  [" +:+ proj +:+ "]  ").
Proof.
  intros (Hh & Hm & Hs).
  transitivity
    (Some (conv_d true 2 (tm_hour t) +:+ ":" +:+ conv_d true 2 (tm_min t) +:+ ":" +:+
           conv_d true 2 (tm_sec t) +:+ "  " +:+ conv_x true 8 r +:+ "  [" +:+
           conv_s 0 proj +:+ "]  ")).
  { reflexivity. }
  rewrite !conv_d_two_digits by lia.
  rewrite conv_x_hex8, !conv_s_plain.
  unfold hh_mm_ss. now rewrite !append_assoc.
Qed.

Lemma vformat_second_err_header (t : tm) (r : result_t) (proj caller loc : string) :
  tm_valid t ->
  vformat "%02d:%02d:%02d  %08x  [%s:%s.%s]  "
          [VInt (tm_hour t); VInt (tm_min t); VInt (tm_sec t);
           VInt r; VStr (Some proj); VStr (Some caller); VStr (Some loc)]
  = Some (hh_mm_ss t +:+ "  " +:+ hex8 r +:+ "  [" +:+ proj +:+ ":" +:+ caller +:+
          "." +:+ loc +:+ "]  ").
Proof.
  intros (Hh & Hm & Hs).
  transitivity
    (Some (conv_d true 2 (tm_hour t) +:+ ":" +:+ conv_d true 2 (tm_min t) +:+ ":" +:+
           conv_d true 2 (tm_sec t) +:+ "  " +:+ conv_x true 8 r +:+ "  [" +:+
           conv_s 0 proj +:+ ":" +:+ conv_s 0 caller +:+ "." +:+ conv_s 0 loc +:+
           "]  ")).
  { reflexivity. }
  rewrite !conv_d_two_digits by lia.
  rewrite conv_x_hex8, !conv_s_plain.
  unfold hh_mm_ss. now rewrite !append_assoc.
Qed.

End SecondCopyFormats.

(** ** Running the monad *)

Section Running.

Lemma bind_returns {A B : Type} (c : M A) (k : A -> M B) (s s' : state) (a : A) :
  c s = Returns a s' -> bind c k s = k a s'.
Proof. intros H. unfold bind. now rewrite H. Qed.

Lemma get_time_returns (s : state) : get_time s = Returns (current_time s) s.
Proof. unfold get_time, current_time. now destruct (gmtime_now (env s)). Qed.

Lemma stream_of_with_stream (f : FILE) (st : stream) (w : world) :
  stream_of f (with_stream f st w) = st.
Proof. now destruct f. Qed.

Lemma with_stream_twice (f : FILE) (st st' : stream) (w : world) :
  with_stream f st' (with_stream f st w) = with_stream f st' w.
Proof. now destruct f. Qed.

Lemma print_print (f : FILE) (n m : nat) (a b : string) (s : state) :
  print f m b (print f n a s) = print f (n + m) (a +:+ b) s.
Proof.
  unfold print. cbn [result_config env].
  rewrite stream_of_with_stream, with_stream_twice.
  do 2 f_equal. unfold stream_after. cbn [written writes_left].
  rewrite append_assoc. f_equal.
  destruct (writes_left (stream_of f (env s))) as [k|]; [|reflexivity].
  cbn [option_map]. f_equal. lia.
Qed.

Lemma can_write_print (f : FILE) (n : nat) (a : string) (s : state) :
  can_write (S n) (stream_of f (env s)) ->
  can_write n (stream_of f (env (print f 1 a s))).
Proof.
  unfold print, can_write. cbn [env]. rewrite stream_of_with_stream.
  unfold stream_after. cbn [writes_left].
  destruct (writes_left (stream_of f (env s))) as [k|]; cbn [option_map]; [lia|trivial].
Qed.

Lemma fprintf_returns (f : FILE) (fmt : string) (args : va_list) (msg : string)
  (n : nat) (s : state) :
  vformat fmt args = Some msg ->
  can_write (S n) (stream_of f (env s)) ->
  fprintf f fmt args s = Returns (Z.of_nat (String.length msg)) (print f 1 msg s).
Proof.
  intros Hfmt Hw. unfold fprintf, stream_write, can_write in *. rewrite Hfmt.
  unfold print, stream_after.
  destruct (writes_left (stream_of f (env s))) as [[|k]|]; [lia| |reflexivity].
  cbn [option_map]. now replace (S k - 1)%nat with k by lia.
Qed.

Lemma length_not_negative (msg : string) : (Z.of_nat (String.length msg) <? 0) = false.
Proof. apply Z.ltb_ge. lia. Qed.

(** A call with characters to write fails on a broken stream. *)
Lemma fprintf_fails (f : FILE) (fmt : string) (args : va_list) (msg : string)
  (s : state) :
  vformat fmt args = Some msg ->
  msg <> EmptyString ->
  writes_left (stream_of f (env s)) = Some O ->
  fprintf f fmt args s = Returns EOF s.
Proof.
  intros Hfmt Hmsg Hw. unfold fprintf, stream_write. rewrite Hfmt, Hw.
  destruct msg; [contradiction|reflexivity].
Qed.


(** The header of a line starts with the time and is never empty. *)
Lemma header_not_empty (t : tm) (rest : string) :
  (hh_mm_ss t +:+ rest)%string <> EmptyString.
Proof.
  unfold hh_mm_ss, two_digits. cbn [fixed_digits]. intros H.
  match type of H with
  | (String ?c ?a +:+ ?b) +:+ ?d = _ =>
      change (String c ((a +:+ b) +:+ d) = EmptyString) in H
  end.
  discriminate H.
Qed.

(** The three writes of a reporter, each followed by its check of the
    value [fprintf] returned. *)
Lemma three_writes {A : Type} (f : FILE) (fmt1 fmt2 fmt3 : string)
  (args1 args2 args3 : va_list) (t1 t2 t3 : string) (a : A) (s : state) :
  vformat fmt1 args1 = Some t1 ->
  vformat fmt2 args2 = Some t2 ->
  vformat fmt3 args3 = Some t3 ->
  can_write 3 (stream_of f (env s)) ->
  (n <- fprintf f fmt1 args1 ;;
   if n <? 0 then abort else
   n <- vfprintf f fmt2 args2 ;;
   if n <? 0 then abort else
   n <- fprintf f fmt3 args3 ;;
   if n <? 0 then abort else ret a) s
  = Returns a (print f 3 (t1 +:+ t2 +:+ t3) s).
Proof.
  intros H1 H2 H3 Hw.
  pose proof (can_write_print f 2 t1 s Hw) as Hw2.
  pose proof (can_write_print f 1 t2 _ Hw2) as Hw1.
  rewrite (bind_returns _ _ _ _ _ (fprintf_returns f _ _ _ 2 _ H1 Hw)).
  rewrite length_not_negative. unfold vfprintf.
  rewrite (bind_returns _ _ _ _ _ (fprintf_returns f _ _ _ 1 _ H2 Hw2)).
  rewrite length_not_negative.
  rewrite (bind_returns _ _ _ _ _ (fprintf_returns f _ _ _ 0 _ H3 Hw1)).
  rewrite length_not_negative.
  unfold ret. now rewrite !print_print.
Qed.

End Running.

(** ** Resolution of the configuration *)

(** Reads one getter that was unfolded, in either case of [installed]. *)
Ltac read_getter H :=
  destruct H as [Hnull | p cfg Hptr Hrec];
  [ rewrite Hnull; reflexivity
  | rewrite Hptr; unfold bind, load_config; rewrite Hrec;
    destruct cfg as [[?|] [?|] [?|] ? ? [?|] [?|]]; reflexivity ].

Section Resolution.

Variables (s : state) (o : option result_config_t).
Hypothesis Hinst : installed s o.

Abbreviation now := (resolved Lurk.result_config_default o).
Abbreviation old := (resolved Second.result_config_default o).

Lemma get_config_projname_resolved :
  Lurk.get_config_projname s = Returns (projname now) s.
Proof. unfold Lurk.get_config_projname. read_getter Hinst. Qed.

Lemma get_config_prefix_resolved :
  Lurk.get_config_prefix s = Returns (prefix now) s.
Proof. unfold Lurk.get_config_prefix. read_getter Hinst. Qed.

Lemma get_config_postfix_resolved :
  Lurk.get_config_postfix s = Returns (postfix now) s.
Proof. unfold Lurk.get_config_postfix. read_getter Hinst. Qed.

Lemma get_config_do_log_resolved :
  Lurk.get_config_do_log s = Returns (do_log now) s.
Proof. unfold Lurk.get_config_do_log. read_getter Hinst. Qed.

Lemma get_config_do_err_resolved :
  Lurk.get_config_do_err s = Returns (do_err now) s.
Proof. unfold Lurk.get_config_do_err. read_getter Hinst. Qed.

Lemma get_config_log_fn_resolved :
  Lurk.get_config_log_fn s = Returns (log_fn now) s.
Proof. unfold Lurk.get_config_log_fn. read_getter Hinst. Qed.

Lemma get_config_err_fn_resolved :
  Lurk.get_config_err_fn s = Returns (err_fn now) s.
Proof. unfold Lurk.get_config_err_fn. read_getter Hinst. Qed.

Lemma second_get_config_projname_resolved :
  Second.get_config_projname s = Returns (projname old) s.
Proof. unfold Second.get_config_projname. read_getter Hinst. Qed.

Lemma second_get_config_do_log_resolved :
  Second.get_config_do_log s = Returns (do_log old) s.
Proof. unfold Second.get_config_do_log. read_getter Hinst. Qed.

Lemma second_get_config_do_err_resolved :
  Second.get_config_do_err s = Returns (do_err old) s.
Proof. unfold Second.get_config_do_err. read_getter Hinst. Qed.

Lemma second_get_config_log_fn_resolved :
  Second.get_config_log_fn s = Returns (log_fn old) s.
Proof. unfold Second.get_config_log_fn. read_getter Hinst. Qed.


End Resolution.

Section ResolvedTexts.

Variable o : option result_config_t.

Lemma projname_resolved_text :
  projname (resolved Lurk.result_config_default o)
  = Some (text (projname (resolved Lurk.result_config_default o))).
Proof. destruct o as [cfg|]; [destruct cfg as [[n|] ? ? ? ? ? ?]|]; reflexivity. Qed.

Lemma prefix_resolved_text :
  prefix (resolved Lurk.result_config_default o)
  = Some (text (prefix (resolved Lurk.result_config_default o))).
Proof. destruct o as [cfg|]; [destruct cfg as [? [n|] ? ? ? ? ?]|]; reflexivity. Qed.

Lemma postfix_resolved_text :
  postfix (resolved Lurk.result_config_default o)
  = Some (text (postfix (resolved Lurk.result_config_default o))).
Proof. destruct o as [cfg|]; [destruct cfg as [? ? [n|] ? ? ? ?]|]; reflexivity. Qed.

Lemma second_projname_resolved_text :
  projname (resolved Second.result_config_default o)
  = Some (text (projname (resolved Second.result_config_default o))).
Proof. destruct o as [cfg|]; [destruct cfg as [[n|] ? ? ? ? ? ?]|]; reflexivity. Qed.

End ResolvedTexts.

(** ** The default reporters *)

(** Runs the next statement of a reporter with the equation [E]. *)
Ltac run_with E := rewrite (bind_returns _ _ _ _ _ E).

Section Reporters.

Variables (s : state) (o : option result_config_t).
Hypothesis Hinst : installed s o.
Hypothesis Htime : tm_valid (current_time s).

Abbreviation now := (resolved Lurk.result_config_default o).
Abbreviation old := (resolved Second.result_config_default o).

Lemma log_default_writes_line (r : result_t) (fmt : string) (args : va_list)
  (msg : string) :
  do_log now = true ->
  vformat fmt args = Some msg ->
  can_write 3 (stdout (env s)) ->
  Lurk.log_default r (Some fmt) args s =
  Returns tt (print Stdout 3
                (log_line (current_time s) r (text (projname now))
                          (text (prefix now)) msg (text (postfix now))) s).
Proof.
  intros Hen Hfmt Hw. unfold Lurk.log_default.
  run_with (get_config_do_log_resolved s o Hinst). rewrite Hen. cbn [negb].
  run_with (get_config_projname_resolved s o Hinst).
  run_with (get_config_prefix_resolved s o Hinst).
  run_with (get_config_postfix_resolved s o Hinst).
  run_with (get_time_returns s).
  rewrite projname_resolved_text, prefix_resolved_text, postfix_resolved_text.
  rewrite (three_writes Stdout _ _ _ _ _ _ _ _ _ tt s
             (vformat_log_header _ r _ _ Htime) Hfmt (vformat_postfix _) Hw).
  unfold log_line. now rewrite !append_assoc.
Qed.

Lemma err_header_placeholders (t : tm) (r : result_t) (proj pre : string)
  (caller loc : option string) :
  tm_valid t ->
  vformat "%02d:%02d:%02d  %08x  [%s:%s.%s]  %s"
    [VInt (tm_hour t); VInt (tm_min t); VInt (tm_sec t); VInt r; VStr (Some proj);
     VStr match caller with None => Some "(unknown)"%string | Some _ => caller end;
     VStr match loc with None => Some "???"%string | Some _ => loc end;
     VStr (Some pre)]
  = Some (hh_mm_ss t +:+ "  " +:+ hex8 r +:+ "  [" +:+ proj +:+ ":" +:+
          default "(unknown)"%string caller +:+ "." +:+
          default "???"%string loc +:+ "]  " +:+ pre).
Proof. intros Ht. destruct caller, loc; now apply vformat_err_header. Qed.

Lemma second_err_header_placeholders (t : tm) (r : result_t) (proj : string)
  (caller loc : option string) :
  tm_valid t ->
  vformat "%02d:%02d:%02d  %08x  [%s:%s.%s]  "
    [VInt (tm_hour t); VInt (tm_min t); VInt (tm_sec t); VInt r; VStr (Some proj);
     VStr match caller with None => Some "(unknown)"%string | Some _ => caller end;
     VStr match loc with None => Some "???"%string | Some _ => loc end]
  = Some (hh_mm_ss t +:+ "  " +:+ hex8 r +:+ "  [" +:+ proj +:+ ":" +:+
          default "(unknown)"%string caller +:+ "." +:+
          default "???"%string loc +:+ "]  ").
Proof. intros Ht. destruct caller, loc; now apply vformat_second_err_header. Qed.

Lemma err_default_writes_line (r : result_t) (caller loc : option string)
  (fmt : string) (args : va_list) (msg : string) :
  do_err now = true ->
  vformat fmt args = Some msg ->
  can_write 3 (stderr (env s)) ->
  Lurk.err_default r caller loc (Some fmt) args s =
  Returns tt (print Stderr 3
                (err_line (current_time s) r (text (projname now))
                          (default "(unknown)"%string caller)
                          (default "???"%string loc)
                          (text (prefix now)) msg (text (postfix now))) s).
Proof.
  intros Hen Hfmt Hw. unfold Lurk.err_default.
  run_with (get_config_do_err_resolved s o Hinst). rewrite Hen. cbn [negb].
  run_with (get_time_returns s).
  run_with (get_config_projname_resolved s o Hinst).
  run_with (get_config_prefix_resolved s o Hinst).
  run_with (get_config_postfix_resolved s o Hinst).
  rewrite projname_resolved_text, prefix_resolved_text, postfix_resolved_text.
  rewrite (three_writes Stderr _ _ _ _ _ _ _ _ _ tt s
             (err_header_placeholders _ r _ _ caller loc Htime) Hfmt
             (vformat_postfix _) Hw).
  unfold err_line. now rewrite !append_assoc.
Qed.

(** The second copy prints no prefix and always ends the line itself. *)
Lemma second_log_default_writes_line (r : result_t) (fmt : string) (args : va_list)
  (msg : string) :
  do_log old = true ->
  vformat fmt args = Some msg ->
  can_write 3 (stdout (env s)) ->
  Second.log_default r (Some fmt) args s =
  Returns r (print Stdout 3
               (log_line (current_time s) r (text (projname old))
                         EmptyString msg newline) s).
Proof.
  intros Hen Hfmt Hw. unfold Second.log_default.
  run_with (second_get_config_do_log_resolved s o Hinst). rewrite Hen. cbn [negb].
  run_with (second_get_config_projname_resolved s o Hinst).
  run_with (get_time_returns s).
  rewrite second_projname_resolved_text.
  rewrite (three_writes Stdout _ _ _ _ _ _ _ _ _ r s
             (vformat_second_log_header _ r _ Htime) Hfmt vformat_newline Hw).
  unfold log_line. now rewrite !append_assoc.
Qed.

Lemma second_err_default_writes_line (r : result_t) (caller loc : option string)
  (fmt : string) (args : va_list) (msg : string) :
  do_err old = true ->
  vformat fmt args = Some msg ->
  can_write 3 (stderr (env s)) ->
  Second.err_default r caller loc (Some fmt) args s =
  Returns r (print Stderr 3
               (err_line (current_time s) r (text (projname old))
                         (default "(unknown)"%string caller)
                         (default "???"%string loc)
                         EmptyString msg newline) s).
Proof.
  intros Hen Hfmt Hw. unfold Second.err_default.
  run_with (second_get_config_do_err_resolved s o Hinst). rewrite Hen. cbn [negb].
  run_with (get_time_returns s).
  run_with (second_get_config_projname_resolved s o Hinst).
  rewrite second_projname_resolved_text.
  rewrite (three_writes Stderr _ _ _ _ _ _ _ _ _ r s
             (second_err_header_placeholders _ r _ caller loc Htime) Hfmt
             vformat_newline Hw).
  unfold err_line. now rewrite !append_assoc.
Qed.

End Reporters.

(** ** The static pointer is left alone *)

Create HintDb frame.

Section Frame.

Lemma keeps_pointer_ret {A : Type} (a : A) : keeps_pointer (ret a).
Proof. intros s. reflexivity. Qed.

Lemma keeps_pointer_abort {A : Type} : keeps_pointer (@abort A).
Proof. intros s. reflexivity. Qed.

Lemma keeps_pointer_undefined {A : Type} : keeps_pointer (@undefined A).
Proof. intros s. exact I. Qed.

Lemma keeps_pointer_bind {A B : Type} (c : M A) (k : A -> M B) :
  keeps_pointer c -> (forall a, keeps_pointer (k a)) -> keeps_pointer (bind c k).
Proof.
  intros Hc Hk s. unfold bind. specialize (Hc s).
  destruct (c s) as [a s1|s1|]; [|exact Hc|exact I].
  specialize (Hk a s1). destruct (k a s1); congruence.
Qed.

Lemma keeps_pointer_load (p : positive) : keeps_pointer (load_config p).
Proof. intros s. unfold load_config. now destruct (heap (env s) !! p). Qed.

Lemma keeps_pointer_store (p : positive) (cfg : result_config_t) :
  keeps_pointer (store_config p cfg).
Proof. intros s. unfold store_config. now destruct (heap (env s) !! p). Qed.

Lemma keeps_pointer_fprintf (f : FILE) (fmt : string) (args : va_list) :
  keeps_pointer (fprintf f fmt args).
Proof.
  intros s. unfold fprintf.
  destruct (vformat fmt args); [|exact I].
  now destruct (stream_write _ _).
Qed.

Lemma keeps_pointer_vfprintf (f : FILE) (fmt : string) (args : va_list) :
  keeps_pointer (vfprintf f fmt args).
Proof. apply keeps_pointer_fprintf. Qed.

Lemma keeps_pointer_get_time : keeps_pointer get_time.
Proof. intros s. unfold get_time. now destruct (gmtime_now (env s)). Qed.

Lemma keeps_pointer_lift_world {A : Type} (f : world -> outcome world A) :
  keeps_pointer (lift_world f).
Proof. intros s. unfold lift_world. now destruct (f (env s)). Qed.

End Frame.

#[export] Hint Resolve keeps_pointer_ret keeps_pointer_abort keeps_pointer_undefined
  keeps_pointer_load keeps_pointer_store keeps_pointer_fprintf
  keeps_pointer_vfprintf keeps_pointer_get_time keeps_pointer_lift_world : frame.

(** Walks through a body made of [bind], conditionals and matches. *)
Ltac frame :=
  repeat first
    [ solve [auto with frame]
    | apply keeps_pointer_bind; [ | intros ? ]
    | match goal with
      | |- keeps_pointer (if ?b then _ else _) => destruct b
      | |- keeps_pointer (match ?x with _ => _ end) => destruct x
      end ].

(** A getter splits on the pointer before it enters the monad. *)
Ltac frame_getter :=
  let s := fresh "s" in
  intros s;
  match goal with
  | |- context [result_config s] =>
      destruct (result_config s) as [p|] eqn:Hp; [|exact Hp];
      unfold bind, load_config, ret;
      destruct (heap (env s) !! p) as [cfg|]; [|exact I];
      repeat match goal with
             | |- context [match ?f cfg with _ => _ end] => destruct (f cfg)
             end; exact Hp
  end.

Section FrameOfTheLibrary.

Lemma keeps_pointer_get_config_projname : keeps_pointer Lurk.get_config_projname.
Proof. unfold Lurk.get_config_projname. frame_getter. Qed.

Lemma keeps_pointer_get_config_prefix : keeps_pointer Lurk.get_config_prefix.
Proof. unfold Lurk.get_config_prefix. frame_getter. Qed.

Lemma keeps_pointer_get_config_postfix : keeps_pointer Lurk.get_config_postfix.
Proof. unfold Lurk.get_config_postfix. frame_getter. Qed.

Lemma keeps_pointer_get_config_do_log : keeps_pointer Lurk.get_config_do_log.
Proof. unfold Lurk.get_config_do_log. frame_getter. Qed.

Lemma keeps_pointer_get_config_do_err : keeps_pointer Lurk.get_config_do_err.
Proof. unfold Lurk.get_config_do_err. frame_getter. Qed.

Lemma keeps_pointer_get_config_log_fn : keeps_pointer Lurk.get_config_log_fn.
Proof. unfold Lurk.get_config_log_fn. frame_getter. Qed.

Lemma keeps_pointer_get_config_err_fn : keeps_pointer Lurk.get_config_err_fn.
Proof. unfold Lurk.get_config_err_fn. frame_getter. Qed.

Lemma keeps_pointer_second_projname : keeps_pointer Second.get_config_projname.
Proof. unfold Second.get_config_projname. frame_getter. Qed.

Lemma keeps_pointer_second_do_log : keeps_pointer Second.get_config_do_log.
Proof. unfold Second.get_config_do_log. frame_getter. Qed.

Lemma keeps_pointer_second_do_err : keeps_pointer Second.get_config_do_err.
Proof. unfold Second.get_config_do_err. frame_getter. Qed.

Lemma keeps_pointer_second_log_fn : keeps_pointer Second.get_config_log_fn.
Proof. unfold Second.get_config_log_fn. frame_getter. Qed.

Lemma keeps_pointer_second_err_fn : keeps_pointer Second.get_config_err_fn.
Proof. unfold Second.get_config_err_fn. frame_getter. Qed.

End FrameOfTheLibrary.

#[export] Hint Resolve keeps_pointer_get_config_projname keeps_pointer_get_config_prefix
  keeps_pointer_get_config_postfix keeps_pointer_get_config_do_log
  keeps_pointer_get_config_do_err keeps_pointer_get_config_log_fn
  keeps_pointer_get_config_err_fn keeps_pointer_second_projname
  keeps_pointer_second_do_log keeps_pointer_second_do_err
  keeps_pointer_second_log_fn keeps_pointer_second_err_fn : frame.

Section FrameOfTheReporters.

Lemma keeps_pointer_log_default (r : result_t) (fmt : option string) (args : va_list) :
  keeps_pointer (Lurk.log_default r fmt args).
Proof. unfold Lurk.log_default. frame. Qed.

Lemma keeps_pointer_err_default (r : result_t) (caller loc fmt : option string)
  (args : va_list) :
  keeps_pointer (Lurk.err_default r caller loc fmt args).
Proof. unfold Lurk.err_default. frame. Qed.

Lemma keeps_pointer_second_log_default (r : result_t) (fmt : option string)
  (args : va_list) :
  keeps_pointer (Second.log_default r fmt args).
Proof. unfold Second.log_default. frame. Qed.

Lemma keeps_pointer_second_err_default (r : result_t) (caller loc fmt : option string)
  (args : va_list) :
  keeps_pointer (Second.err_default r caller loc fmt args).
Proof. unfold Second.err_default. frame. Qed.

End FrameOfTheReporters.

#[export] Hint Resolve keeps_pointer_log_default keeps_pointer_err_default
  keeps_pointer_second_log_default keeps_pointer_second_err_default : frame.

Section FrameOfTheEntryPoints.

Variable user_log_fn :
  nat -> result_t -> option string -> va_list -> world -> outcome world unit.
Variable user_err_fn :
  nat -> result_t -> option string -> option string -> option string ->
  va_list -> world -> outcome world unit.
Variable second_log_fn :
  nat -> result_t -> option string -> va_list -> world -> outcome world result_t.
Variable second_err_fn :
  nat -> result_t -> option string -> option string -> option string ->
  va_list -> world -> outcome world result_t.

Lemma keeps_pointer_lurk_log (r : result_t) (fmt : option string) (args : va_list) :
  keeps_pointer (Lurk.lurk_log user_log_fn r fmt args).
Proof. unfold Lurk.lurk_log, Lurk.call_log_fn. frame. Qed.

Lemma keeps_pointer_lurk_err (r : result_t) (caller loc fmt : option string)
  (args : va_list) :
  keeps_pointer (Lurk.lurk_err user_err_fn r caller loc fmt args).
Proof. unfold Lurk.lurk_err, Lurk.call_err_fn. frame. Qed.

Lemma keeps_pointer_lurk_get_defaults (line : string) (config : option positive) :
  keeps_pointer (Lurk.lurk_get_defaults user_err_fn line config).
Proof.
  unfold Lurk.lurk_get_defaults, Lurk.RETURN_BAD_PARAM_NULL.
  destruct config; [frame | apply keeps_pointer_lurk_err].
Qed.

Lemma keeps_pointer_second_lurk_log (r : result_t) (fmt : option string)
  (args : va_list) :
  keeps_pointer (Second.lurk_log second_log_fn r fmt args).
Proof. unfold Second.lurk_log, Second.call_log_fn. frame. Qed.

Lemma keeps_pointer_second_lurk_err (r : result_t) (caller loc fmt : option string)
  (args : va_list) :
  keeps_pointer (Second.lurk_err second_err_fn r caller loc fmt args).
Proof. unfold Second.lurk_err, Second.call_err_fn. frame. Qed.

End FrameOfTheEntryPoints.

(** ** What the entry points return *)

Section ReturnValues.

Lemma returns_only_ret {A : Type} (r : A) : returns_only r (ret r).
Proof. intros s. reflexivity. Qed.

Lemma returns_only_bind {A B : Type} (r : B) (c : M A) (k : A -> M B) :
  (forall a, returns_only r (k a)) -> returns_only r (bind c k).
Proof.
  intros Hk s. unfold bind. destruct (c s) as [a s1| |]; [|exact I..].
  apply Hk.
Qed.

Variable user_log_fn :
  nat -> result_t -> option string -> va_list -> world -> outcome world unit.
Variable user_err_fn :
  nat -> result_t -> option string -> option string -> option string ->
  va_list -> world -> outcome world unit.

(** In result.c both entry points end every path in [return result]. *)
Lemma lurk_log_returns_result (r : result_t) (fmt : option string) (args : va_list) :
  returns_only r (Lurk.lurk_log user_log_fn r fmt args).
Proof.
  unfold Lurk.lurk_log. destruct fmt; [|apply returns_only_ret].
  apply returns_only_bind. intros [|]; cbn [negb].
  - apply returns_only_bind. intros fn. apply returns_only_bind. intros _.
    apply returns_only_ret.
  - apply returns_only_ret.
Qed.

Lemma lurk_err_returns_result (r : result_t) (caller loc fmt : option string)
  (args : va_list) :
  returns_only r (Lurk.lurk_err user_err_fn r caller loc fmt args).
Proof.
  unfold Lurk.lurk_err. destruct fmt; [|apply returns_only_ret].
  apply returns_only_bind. intros [|]; cbn [negb].
  - apply returns_only_bind. intros fn. apply returns_only_bind. intros _.
    apply returns_only_ret.
  - apply returns_only_ret.
Qed.

Lemma lurk_log_null_format (r : result_t) (args : va_list) (s : state) :
  Lurk.lurk_log user_log_fn r None args s = Returns r s.
Proof. reflexivity. Qed.

Lemma lurk_err_null_format (r : result_t) (caller loc : option string)
  (args : va_list) (s : state) :
  Lurk.lurk_err user_err_fn r caller loc None args s = Returns r s.
Proof. reflexivity. Qed.

Variables (s : state) (o : option result_config_t).
Hypothesis Hinst : installed s o.

Abbreviation cfg_now := (resolved Lurk.result_config_default o).

(** With the channel on, the entry point is the handler followed by
    [return result]; with the channel off it is [return result] alone. *)
Lemma lurk_log_dispatch (r : result_t) (fmt : string) (args : va_list) :
  Lurk.lurk_log user_log_fn r (Some fmt) args s =
  if do_log cfg_now
  then (Lurk.call_log_fn user_log_fn (log_fn cfg_now) r (Some fmt) args ;; ret r) s
  else Returns r s.
Proof.
  unfold Lurk.lurk_log.
  run_with (get_config_do_log_resolved s o Hinst).
  destruct (do_log cfg_now); cbn [negb]; [|reflexivity].
  now run_with (get_config_log_fn_resolved s o Hinst).
Qed.

Lemma lurk_err_dispatch (r : result_t) (caller loc : option string) (fmt : string)
  (args : va_list) :
  Lurk.lurk_err user_err_fn r caller loc (Some fmt) args s =
  if do_err cfg_now
  then (Lurk.call_err_fn user_err_fn (err_fn cfg_now) r caller loc (Some fmt) args ;;
        ret r) s
  else Returns r s.
Proof.
  unfold Lurk.lurk_err.
  run_with (get_config_do_err_resolved s o Hinst).
  destruct (do_err cfg_now); cbn [negb]; [|reflexivity].
  now run_with (get_config_err_fn_resolved s o Hinst).
Qed.

End ReturnValues.

(** ** Without an override the configuration records are not read *)

Create HintDb blind.

Section HeapBlind.

Lemma same_streams_refl (s : state) : same_streams s s.
Proof. repeat split. Qed.

Lemma alike_observe {A : Type} (o1 o2 : outcome state A) :
  alike o1 o2 -> observe o1 = observe o2.
Proof.
  destruct o1 as [a s1|s1|], o2 as [b s2|s2|]; cbn; try tauto.
  - intros (-> & _ & -> & -> & _). reflexivity.
  - intros (_ & -> & -> & _). reflexivity.
Qed.

Lemma heap_blind_ret {A : Type} (a : A) : heap_blind (ret a).
Proof. intros s1 s2 H. now split. Qed.

Lemma heap_blind_abort {A : Type} : heap_blind (@abort A).
Proof. intros s1 s2 H. exact H. Qed.

Lemma heap_blind_bind {A B : Type} (c : M A) (k : A -> M B) :
  heap_blind c -> (forall a, heap_blind (k a)) -> heap_blind (bind c k).
Proof.
  intros Hc Hk s1 s2 H. unfold bind. specialize (Hc s1 s2 H).
  destruct (c s1) as [a t1|t1|], (c s2) as [b t2|t2|]; cbn in Hc; try tauto.
  destruct Hc as [-> Ht]. now apply Hk.
Qed.

Lemma heap_blind_fprintf (f : FILE) (fmt : string) (args : va_list) :
  heap_blind (fprintf f fmt args).
Proof.
  intros s1 s2 (Hp & Hout & Herr & Hclock). unfold fprintf.
  destruct (vformat fmt args) as [msg|]; [|exact I].
  assert (Hf : stream_of f (env s1) = stream_of f (env s2)) by now destruct f.
  rewrite Hf.
  destruct (stream_write msg (stream_of f (env s2))) as [st|]; cbn.
  - split; [reflexivity|]. destruct f; repeat split; assumption.
  - repeat split; assumption.
Qed.

Lemma heap_blind_vfprintf (f : FILE) (fmt : string) (args : va_list) :
  heap_blind (vfprintf f fmt args).
Proof. apply heap_blind_fprintf. Qed.

End HeapBlind.

#[export] Hint Resolve heap_blind_ret heap_blind_abort heap_blind_fprintf
  heap_blind_vfprintf : blind.

Ltac blind :=
  repeat first
    [ solve [auto with blind]
    | apply heap_blind_bind; [ | intros ? ]
    | match goal with
      | |- heap_blind (if ?b then _ else _) => destruct b
      end ].

(** Reduces a goal on two runs of one computation to its blindness. *)
Ltac by_blindness H :=
  match goal with
  | |- alike (?c ?s1) (?c ?s2) =>
      cut (heap_blind c); [ intros Hblind; exact (Hblind s1 s2 H) | blind ]
  end.

Section Unconfigured.

Variable user_log_fn :
  nat -> result_t -> option string -> va_list -> world -> outcome world unit.
Variable user_err_fn :
  nat -> result_t -> option string -> option string -> option string ->
  va_list -> world -> outcome world unit.

Variables s1 s2 : state.
Hypothesis Hnull : result_config s1 = None.
Hypothesis Hsame : same_streams s1 s2.

Lemma unconfigured_both : installed s1 None /\ installed s2 None.
Proof.
  split; constructor; [exact Hnull|]. destruct Hsame as [<- _]. exact Hnull.
Qed.

Lemma unconfigured_time : current_time s2 = current_time s1.
Proof.
  destruct Hsame as (_ & _ & _ & Hclock). unfold current_time. now rewrite Hclock.
Qed.

Lemma log_default_unconfigured (r : result_t) (fmt : option string) (args : va_list) :
  alike (Lurk.log_default r fmt args s1) (Lurk.log_default r fmt args s2).
Proof.
  destruct unconfigured_both as [H1 H2].
  destruct fmt as [fmt|]; [|now split].
  unfold Lurk.log_default.
  run_with (get_config_do_log_resolved s1 None H1).
  run_with (get_config_do_log_resolved s2 None H2). cbn [resolved do_log Lurk.result_config_default negb].
  run_with (get_config_projname_resolved s1 None H1).
  run_with (get_config_projname_resolved s2 None H2).
  run_with (get_config_prefix_resolved s1 None H1).
  run_with (get_config_prefix_resolved s2 None H2).
  run_with (get_config_postfix_resolved s1 None H1).
  run_with (get_config_postfix_resolved s2 None H2).
  run_with (get_time_returns s1). run_with (get_time_returns s2).
  rewrite unconfigured_time.
  by_blindness Hsame.
Qed.

Lemma err_default_unconfigured (r : result_t) (caller loc fmt : option string)
  (args : va_list) :
  alike (Lurk.err_default r caller loc fmt args s1)
        (Lurk.err_default r caller loc fmt args s2).
Proof.
  destruct unconfigured_both as [H1 H2].
  destruct fmt as [fmt|]; [|now split].
  unfold Lurk.err_default.
  run_with (get_config_do_err_resolved s1 None H1).
  run_with (get_config_do_err_resolved s2 None H2). cbn [resolved do_err Lurk.result_config_default negb].
  run_with (get_time_returns s1). run_with (get_time_returns s2).
  run_with (get_config_projname_resolved s1 None H1).
  run_with (get_config_projname_resolved s2 None H2).
  run_with (get_config_prefix_resolved s1 None H1).
  run_with (get_config_prefix_resolved s2 None H2).
  run_with (get_config_postfix_resolved s1 None H1).
  run_with (get_config_postfix_resolved s2 None H2).
  rewrite unconfigured_time.
  by_blindness Hsame.
Qed.

Lemma alike_then_ret {A B : Type} (o1 o2 : outcome state A) (b : B) :
  alike o1 o2 ->
  alike (match o1 with
         | Returns _ t => Returns b t
         | Aborted t => Aborted t
         | Undefined => Undefined
         end)
        (match o2 with
         | Returns _ t => Returns b t
         | Aborted t => Aborted t
         | Undefined => Undefined
         end).
Proof.
  destruct o1, o2; cbn; tauto.
Qed.

Lemma lurk_log_unconfigured (r : result_t) (fmt : option string) (args : va_list) :
  alike (Lurk.lurk_log user_log_fn r fmt args s1)
        (Lurk.lurk_log user_log_fn r fmt args s2).
Proof.
  destruct unconfigured_both as [H1 H2].
  destruct fmt as [fmt|]; [|now split].
  rewrite (lurk_log_dispatch user_log_fn s1 None H1).
  rewrite (lurk_log_dispatch user_log_fn s2 None H2).
  cbn [resolved do_log log_fn Lurk.result_config_default Lurk.call_log_fn].
  unfold bind, ret. apply alike_then_ret, log_default_unconfigured.
Qed.

Lemma lurk_err_unconfigured (r : result_t) (caller loc fmt : option string)
  (args : va_list) :
  alike (Lurk.lurk_err user_err_fn r caller loc fmt args s1)
        (Lurk.lurk_err user_err_fn r caller loc fmt args s2).
Proof.
  destruct unconfigured_both as [H1 H2].
  destruct fmt as [fmt|]; [|now split].
  rewrite (lurk_err_dispatch user_err_fn s1 None H1).
  rewrite (lurk_err_dispatch user_err_fn s2 None H2).
  cbn [resolved do_err err_fn Lurk.result_config_default Lurk.call_err_fn].
  unfold bind, ret. apply alike_then_ret, err_default_unconfigured.
Qed.

End Unconfigured.

(** ** The entry points of result.c with a handler that returns *)

Section EntryPointsReturn.

Variable user_log_fn :
  nat -> result_t -> option string -> va_list -> world -> outcome world unit.

Variables (s : state) (o : option result_config_t).
Hypothesis Hinst : installed s o.
Hypothesis Hon : do_log (resolved Lurk.result_config_default o) = true.

(** With the default reporter the line is printed and [result] returned. *)
Lemma lurk_log_reports (r : result_t) (fmt : string) (args : va_list) (msg : string) :
  log_fn (resolved Lurk.result_config_default o) = Some Fn_log_default ->
  tm_valid (current_time s) ->
  vformat fmt args = Some msg ->
  can_write 3 (stdout (env s)) ->
  Lurk.lurk_log user_log_fn r (Some fmt) args s
  = Returns r
      (print Stdout 3
         (log_line (current_time s) r
            (text (projname (resolved Lurk.result_config_default o)))
            (text (prefix (resolved Lurk.result_config_default o))) msg
            (text (postfix (resolved Lurk.result_config_default o)))) s).
Proof.
  intros Hfn Htime Hfmt Hw.
  rewrite (lurk_log_dispatch user_log_fn s o Hinst), Hon, Hfn.
  cbn [Lurk.call_log_fn].
  now rewrite (bind_returns _ _ _ _ _
                 (log_default_writes_line s o Hinst Htime r fmt args msg Hon Hfmt Hw)).
Qed.

(** With a client handler that returns, [result] is returned whatever the
    handler did to the world. *)
Lemma lurk_log_user_handler (r : result_t) (fmt : string) (args : va_list)
  (id : nat) (w : world) :
  log_fn (resolved Lurk.result_config_default o) = Some (Fn_log_user id) ->
  user_log_fn id r (Some fmt) args (env s) = Returns tt w ->
  Lurk.lurk_log user_log_fn r (Some fmt) args s
  = Returns r (mkState (result_config s) w).
Proof.
  intros Hfn Hrun.
  rewrite (lurk_log_dispatch user_log_fn s o Hinst), Hon, Hfn.
  cbn [Lurk.call_log_fn]. unfold bind, lift_world. now rewrite Hrun.
Qed.

(** A first write that fails aborts the process inside the reporter. *)
Lemma log_default_aborts (r : result_t) (fmt : string) (args : va_list) :
  tm_valid (current_time s) ->
  writes_left (stdout (env s)) = Some O ->
  Lurk.log_default r (Some fmt) args s = Aborted s.
Proof.
  intros Htime Hfull. unfold Lurk.log_default.
  run_with (get_config_do_log_resolved s o Hinst). rewrite Hon. cbn [negb].
  run_with (get_config_projname_resolved s o Hinst).
  run_with (get_config_prefix_resolved s o Hinst).
  run_with (get_config_postfix_resolved s o Hinst).
  run_with (get_time_returns s).
  rewrite projname_resolved_text, prefix_resolved_text, postfix_resolved_text.
  now rewrite (bind_returns _ _ _ _ _
                 (fprintf_fails Stdout _ _ _ s (vformat_log_header _ r _ _ Htime)
                    (header_not_empty _ _) Hfull)).
Qed.

End EntryPointsReturn.

(** ** Runs on the sample processes *)

Example format_pass_error :
  vformat "Callback trace, passing: [%08x]." [VInt 255]
  = Some "Callback trace, passing: [000000ff]."%string.
Proof. vm_compute. reflexivity. Qed.

Example format_needs_argument : vformat "[%08x]" [] = None.
Proof. reflexivity. Qed.

(** [lurk_log(RESULT_FAILURE, "queue empty")] under the default configuration. *)
Example log_queue_empty :
  Lurk.lurk_log quiet_log_fn RESULT_FAILURE (Some "queue empty"%string) [] state0
  = Returns RESULT_FAILURE
      (print Stdout 3 ("12:34:56  00000001  [lurk]  queue empty" +:+ newline) state0).
Proof. vm_compute. reflexivity. Qed.

(** With [{ .projname = "app" }] installed both channels are off. *)
Example log_disabled :
  Lurk.lurk_log quiet_log_fn RESULT_DONE (Some "step"%string) [] state_app
  = Returns RESULT_DONE state_app.
Proof. vm_compute. reflexivity. Qed.

(** A standard output that refuses the second write: the header is out and
    the process is aborted. *)
Example log_aborts_midway :
  Lurk.lurk_log quiet_log_fn RESULT_DONE (Some "step"%string) []
    (mkState None (mkWorld ∅ (mkStream EmptyString (Some 1%nat)) open_stream None))
  = Aborted
      (mkState None
         (mkWorld ∅ (mkStream "00:00:00  00000002  [lurk]  " (Some 0%nat))
                  open_stream None)).
Proof. vm_compute. reflexivity. Qed.

Lemma only_projname_flags_off :
  Lurk.get_config_do_log state_app = Returns false state_app /\
  Lurk.get_config_do_err state_app = Returns false state_app.
Proof. split; reflexivity. Qed.

(** * The claims *)

(** ** Configuration *)

(** C3 (amended): under an installed override each pointer field (project
    name, prefix, postfix, log handler, err handler) resolves on its own to
    the override's value when set and to the default's when null; the two
    flags have no unset state and resolve to the override's flags. *)
Theorem override_fields_resolve (s : state) (p : positive) (cfg : result_config_t) :
  result_config s = Some p ->
  heap (env s) !! p = Some cfg ->
  Lurk.get_config_projname s
    = Returns (match projname cfg with
               | Some name => Some name
               | None => projname Lurk.result_config_default
               end) s /\
  Lurk.get_config_prefix s
    = Returns (match prefix cfg with
               | Some pre => Some pre
               | None => prefix Lurk.result_config_default
               end) s /\
  Lurk.get_config_postfix s
    = Returns (match postfix cfg with
               | Some post => Some post
               | None => postfix Lurk.result_config_default
               end) s /\
  Lurk.get_config_log_fn s
    = Returns (match log_fn cfg with
               | Some fn => Some fn
               | None => log_fn Lurk.result_config_default
               end) s /\
  Lurk.get_config_err_fn s
    = Returns (match err_fn cfg with
               | Some fn => Some fn
               | None => err_fn Lurk.result_config_default
               end) s /\
  Lurk.get_config_do_log s = Returns (do_log cfg) s /\
  Lurk.get_config_do_err s = Returns (do_err cfg) s.
Proof.
  intros Hptr Hrec.
  pose proof (installed_some s p cfg Hptr Hrec) as Hinst.
  rewrite (get_config_projname_resolved s _ Hinst),
          (get_config_prefix_resolved s _ Hinst),
          (get_config_postfix_resolved s _ Hinst),
          (get_config_log_fn_resolved s _ Hinst),
          (get_config_err_fn_resolved s _ Hinst),
          (get_config_do_log_resolved s _ Hinst),
          (get_config_do_err_resolved s _ Hinst).
  repeat split.
Qed.

(** With [{ .projname = "app" }] installed: the name is the override's,
    prefix, postfix and handlers are the defaults, both channels are off. *)
Lemma override_fields_resolve_witness :
  Lurk.get_config_projname state_app = Returns (Some "app"%string) state_app /\
  Lurk.get_config_prefix state_app = Returns (Some EmptyString) state_app /\
  Lurk.get_config_postfix state_app = Returns (Some newline) state_app /\
  Lurk.get_config_log_fn state_app = Returns (Some Fn_log_default) state_app /\
  Lurk.get_config_err_fn state_app = Returns (Some Fn_err_default) state_app /\
  Lurk.get_config_do_log state_app = Returns false state_app /\
  Lurk.get_config_do_err state_app = Returns false state_app.
Proof.
  exact (override_fields_resolve state_app 1%positive (config_only_projname "app")
           eq_refl eq_refl).
Defined.

(** C3 (as stated) fails for the flags: with only the project name set, the
    log and err flags do not resolve to the defaults. *)
Lemma only_projname_flags_not_default :
  Lurk.get_config_do_log state_app
    <> Returns (do_log Lurk.result_config_default) state_app /\
  Lurk.get_config_do_err state_app
    <> Returns (do_err Lurk.result_config_default) state_app.
Proof.
  destruct only_projname_flags_off as [Hlog Herr].
  rewrite Hlog, Herr. split; discriminate.
Qed.

(** C5: [lurk_set_result_config] returns [RESULT_SUCCESS] for every argument
    and stores it; after the call with [NULL] every getter answers the
    compiled-in default, and the entry points behave, for an observer of the
    return value and of the two streams, as in a process in which no
    configuration was ever installed. *)
Theorem set_result_config_null_restores_defaults :
  (forall (config : option positive) (s : state),
      Lurk.lurk_set_result_config config s
      = Returns RESULT_SUCCESS (mkState config (env s))) /\
  (forall s : state,
      exists s' : state,
        Lurk.lurk_set_result_config None s = Returns RESULT_SUCCESS s' /\
        result_config s' = result_config state0 /\
        Lurk.get_config_projname s' = Returns (projname Lurk.result_config_default) s' /\
        Lurk.get_config_prefix s' = Returns (prefix Lurk.result_config_default) s' /\
        Lurk.get_config_postfix s' = Returns (postfix Lurk.result_config_default) s' /\
        Lurk.get_config_do_log s' = Returns (do_log Lurk.result_config_default) s' /\
        Lurk.get_config_do_err s' = Returns (do_err Lurk.result_config_default) s' /\
        Lurk.get_config_log_fn s' = Returns (log_fn Lurk.result_config_default) s' /\
        Lurk.get_config_err_fn s' = Returns (err_fn Lurk.result_config_default) s' /\
        forall user_log_fn user_err_fn r caller loc fmt args,
          observe (Lurk.lurk_log user_log_fn r fmt args s')
          = observe (Lurk.lurk_log user_log_fn r fmt args (never_configured (env s))) /\
          observe (Lurk.lurk_err user_err_fn r caller loc fmt args s')
          = observe (Lurk.lurk_err user_err_fn r caller loc fmt args
                                   (never_configured (env s)))).
Proof.
  split; [reflexivity|].
  intros s. exists (mkState None (env s)).
  repeat (split; [reflexivity|]).
  intros user_log_fn user_err_fn r caller loc fmt args.
  assert (Hsame : same_streams (mkState None (env s)) (never_configured (env s)))
    by (repeat split).
  split; apply alike_observe.
  - now apply lurk_log_unconfigured.
  - now apply lurk_err_unconfigured.
Qed.

(** C4 (amended): [lurk_get_defaults] with a destination writes the default
    record there and returns [RESULT_SUCCESS], printing nothing.  With [NULL]
    it writes no record and goes through [lurk_err]: whenever it returns, it
    returns [RESULT_BAD_PARAM]; with the err channel off nothing is printed;
    with the channel on and the default reporter one line that names
    [lurk_get_defaults] and the parameter is added to standard error. *)
Theorem lurk_get_defaults_null_is_reported
  (user_err_fn : nat -> result_t -> option string -> option string ->
                 option string -> va_list -> world -> outcome world unit)
  (line : string) :
  (forall (s : state) (p : positive) (old : result_config_t),
      heap (env s) !! p = Some old ->
      Lurk.lurk_get_defaults user_err_fn line (Some p) s
      = Returns RESULT_SUCCESS
          (mkState (result_config s)
                   (mkWorld (<[p := Lurk.result_config_default]> (heap (env s)))
                            (stdout (env s)) (stderr (env s)) (gmtime_now (env s))))) /\
  returns_only RESULT_BAD_PARAM (Lurk.lurk_get_defaults user_err_fn line None) /\
  (forall (s : state) (o : option result_config_t),
      installed s o ->
      do_err (resolved Lurk.result_config_default o) = false ->
      Lurk.lurk_get_defaults user_err_fn line None s = Returns RESULT_BAD_PARAM s) /\
  (forall (s : state) (o : option result_config_t),
      installed s o ->
      do_err (resolved Lurk.result_config_default o) = true ->
      err_fn (resolved Lurk.result_config_default o) = Some Fn_err_default ->
      tm_valid (current_time s) ->
      can_write 3 (stderr (env s)) ->
      Lurk.lurk_get_defaults user_err_fn line None s
      = Returns RESULT_BAD_PARAM
          (print Stderr 3
             (err_line (current_time s) RESULT_BAD_PARAM
                (text (projname (resolved Lurk.result_config_default o)))
                "lurk_get_defaults" line
                (text (prefix (resolved Lurk.result_config_default o)))
                "Bad parameter [config]. Must not be [NULL]"
                (text (postfix (resolved Lurk.result_config_default o)))) s)).
Proof.
  repeat split.
  - intros s p old Hp. unfold Lurk.lurk_get_defaults, bind, store_config, ret.
    now rewrite Hp.
  - apply lurk_err_returns_result.
  - intros s o Hinst Hoff.
    unfold Lurk.lurk_get_defaults, Lurk.RETURN_BAD_PARAM_NULL.
    rewrite (lurk_err_dispatch user_err_fn s o Hinst). now rewrite Hoff.
  - intros s o Hinst Hon Hfn Htime Hw.
    unfold Lurk.lurk_get_defaults, Lurk.RETURN_BAD_PARAM_NULL.
    change ("Bad parameter [" +:+ "config" +:+ "]. Must not be [NULL]")
      with "Bad parameter [config]. Must not be [NULL]"%string.
    rewrite (lurk_err_dispatch user_err_fn s o Hinst). rewrite Hon, Hfn.
    cbn [Lurk.call_err_fn].
    rewrite (bind_returns _ _ _ _ _
               (err_default_writes_line s o Hinst Htime RESULT_BAD_PARAM
                  (Some "lurk_get_defaults"%string) (Some line)
                  "Bad parameter [config]. Must not be [NULL]" []
                  "Bad parameter [config]. Must not be [NULL]" Hon eq_refl Hw)).
    reflexivity.
Qed.

Lemma lurk_get_defaults_null_is_reported_witness :
  Lurk.lurk_get_defaults quiet_err_fn "133" None state_app
    = Returns RESULT_BAD_PARAM state_app /\
  Lurk.lurk_get_defaults quiet_err_fn "133" None state0
    = Returns RESULT_BAD_PARAM
        (print Stderr 3
           ("12:34:56  ffffffff  [lurk:lurk_get_defaults.133]  Bad parameter [config]. Must not be [NULL]"
            +:+ newline) state0) /\
  Lurk.lurk_get_defaults quiet_err_fn "133" (Some 1%positive) state_app
    = Returns RESULT_SUCCESS
        (mkState (Some 1%positive)
           (mkWorld {[ 1%positive := Lurk.result_config_default ]}
                    open_stream open_stream (Some (mkTm 12 34 56)))).
Proof.
  destruct (lurk_get_defaults_null_is_reported quiet_err_fn "133")
    as (Hstore & _ & Hoff & Hon).
  split; [|split].
  - exact (Hoff state_app (Some (config_only_projname "app"))
             (installed_some state_app 1%positive _ eq_refl eq_refl) eq_refl).
  - refine (Hon state0 None (installed_none state0 eq_refl) eq_refl eq_refl _ I).
    unfold tm_valid. cbn. lia.
  - exact (Hstore state_app 1%positive (config_only_projname "app") eq_refl).
Defined.

(** C4 (as stated) fails: on a fresh process [lurk_get_defaults(NULL)]
    prints a line on standard error (here with the guard on line 133). *)
Lemma lurk_get_defaults_null_prints :
  exists s' : state,
    Lurk.lurk_get_defaults quiet_err_fn "133" None state0 = Returns RESULT_BAD_PARAM s' /\
    written (stderr (env s'))
    = ("12:34:56  ffffffff  [lurk:lurk_get_defaults.133]  Bad parameter [config]. Must not be [NULL]"
       +:+ newline)%string /\
    written (stderr (env s')) <> written (stderr (env state0)).
Proof.
  eexists. split; [vm_compute; reflexivity|].
  split; [reflexivity|discriminate].
Qed.

(** C10: [lurk_set_result_config] is the one operation that assigns the
    static pointer; [lurk_get_defaults], [lurk_log], [lurk_err] and the two
    default reporters leave it as it was on every path, whether they return
    or abort, in both copies of result.c.  The classification predicates are
    pure functions of their argument. *)
Theorem only_set_result_config_assigns_pointer :
  (forall (config : option positive) (s : state),
      Lurk.lurk_set_result_config config s
      = Returns RESULT_SUCCESS (mkState config (env s))) /\
  (forall user_err_fn line config,
      keeps_pointer (Lurk.lurk_get_defaults user_err_fn line config)) /\
  (forall user_log_fn r fmt args,
      keeps_pointer (Lurk.lurk_log user_log_fn r fmt args)) /\
  (forall user_err_fn r caller loc fmt args,
      keeps_pointer (Lurk.lurk_err user_err_fn r caller loc fmt args)) /\
  (forall r fmt args, keeps_pointer (Lurk.log_default r fmt args)) /\
  (forall r caller loc fmt args,
      keeps_pointer (Lurk.err_default r caller loc fmt args)) /\
  (forall user_log_fn r fmt args,
      keeps_pointer (Second.lurk_log user_log_fn r fmt args)) /\
  (forall user_err_fn r caller loc fmt args,
      keeps_pointer (Second.lurk_err user_err_fn r caller loc fmt args)) /\
  (forall r fmt args, keeps_pointer (Second.log_default r fmt args)) /\
  (forall r caller loc fmt args,
      keeps_pointer (Second.err_default r caller loc fmt args)) /\
  (forall r : result_t,
      keeps_pointer (ret (is_success r)) /\ keeps_pointer (ret (is_failure r)) /\
      keeps_pointer (ret (is_valid_object r)) /\ keeps_pointer (ret (is_error r)) /\
      keeps_pointer (ret (is_lurk_err r)) /\ keeps_pointer (ret (is_true r)) /\
      keeps_pointer (ret (is_false r))).
Proof.
  split; [reflexivity|].
  split; [intros; apply keeps_pointer_lurk_get_defaults|].
  split; [intros; apply keeps_pointer_lurk_log|].
  split; [intros; apply keeps_pointer_lurk_err|].
  split; [intros; apply keeps_pointer_log_default|].
  split; [intros; apply keeps_pointer_err_default|].
  split; [intros; apply keeps_pointer_second_lurk_log|].
  split; [intros; apply keeps_pointer_second_lurk_err|].
  split; [intros; apply keeps_pointer_second_log_default|].
  split; [intros; apply keeps_pointer_second_err_default|].
  intros r. repeat split; apply keeps_pointer_ret.
Qed.

(** ** The second copy of result.c on its own terms *)

(** In the second copy the entry points answer with a status of their own:
    [RESULT_BAD_PARAM] for a null format, and from [lurk_log]
    [RESULT_SUCCESS] after every call with a format. *)
Lemma second_copy_returns_status :
  (forall user_log_fn r fmt args,
      returns_only RESULT_SUCCESS (Second.lurk_log user_log_fn r (Some fmt) args)) /\
  (forall user_log_fn r args s,
      Second.lurk_log user_log_fn r None args s = Returns RESULT_BAD_PARAM s) /\
  (forall user_err_fn r caller loc args s,
      Second.lurk_err user_err_fn r caller loc None args s
      = Returns RESULT_BAD_PARAM s).
Proof.
  split; [|split; reflexivity].
  intros user_log_fn r fmt args. unfold Second.lurk_log.
  apply returns_only_bind. intros [|]; cbn [negb].
  - apply returns_only_bind. intros fn. apply returns_only_bind. intros _.
    apply returns_only_ret.
  - apply returns_only_ret.
Qed.

(** ** The default reporters *)

(** C8: in the default error reporter a null caller is printed as
    ["(unknown)"] and a null location as ["???"]; with the err channel on,
    the line goes to standard error with the tag [[project:caller.location]],
    in result.c (with prefix and postfix) and in its second copy (with no
    prefix and a newline). *)
Theorem err_default_placeholders (s : state) (o : option result_config_t)
  (r : result_t) (caller loc : option string) (fmt : string) (args : va_list)
  (msg : string) :
  installed s o ->
  tm_valid (current_time s) ->
  do_err (resolved Lurk.result_config_default o) = true ->
  vformat fmt args = Some msg ->
  can_write 3 (stderr (env s)) ->
  let cfg := resolved Lurk.result_config_default o in
  let who := match caller with Some c => c | None => "(unknown)"%string end in
  let place := match loc with Some l => l | None => "???"%string end in
  Lurk.err_default r caller loc (Some fmt) args s
  = Returns tt
      (print Stderr 3
         (hh_mm_ss (current_time s) +:+ "  " +:+ hex8 r +:+
          "  [" +:+ text (projname cfg) +:+ ":" +:+ who +:+ "." +:+ place +:+ "]  " +:+
          text (prefix cfg) +:+ msg +:+ text (postfix cfg)) s) /\
  Second.err_default r caller loc (Some fmt) args s
  = Returns r
      (print Stderr 3
         (hh_mm_ss (current_time s) +:+ "  " +:+ hex8 r +:+
          "  [" +:+ text (projname cfg) +:+ ":" +:+ who +:+ "." +:+ place +:+ "]  " +:+
          msg +:+ newline) s).
Proof.
  intros Hinst Htime Hon Hfmt Hw cfg who place.
  split.
  - rewrite (err_default_writes_line s o Hinst Htime r caller loc fmt args msg
               Hon Hfmt Hw).
    unfold err_line, who, place, cfg. now destruct caller, loc.
  - assert (Hon' : do_err (resolved Second.result_config_default o) = true)
      by (destruct o; exact Hon).
    rewrite (second_err_default_writes_line s o Hinst Htime r caller loc fmt args msg
               Hon' Hfmt Hw).
    unfold err_line, who, place, cfg.
    assert (Hname : projname (resolved Second.result_config_default o)
                    = projname (resolved Lurk.result_config_default o))
      by (destruct o; reflexivity).
    rewrite Hname. now destruct caller, loc.
Qed.

(** [report_error(BadParam, null, null, "bad arg")] on a fresh process. *)
Lemma err_default_placeholders_witness :
  Lurk.err_default RESULT_BAD_PARAM None None (Some "bad arg"%string) [] state0
  = Returns tt
      (print Stderr 3 ("12:34:56  ffffffff  [lurk:(unknown).???]  bad arg" +:+ newline)
             state0) /\
  Second.err_default RESULT_BAD_PARAM None None (Some "bad arg"%string) [] state0
  = Returns RESULT_BAD_PARAM
      (print Stderr 3 ("12:34:56  ffffffff  [lurk:(unknown).???]  bad arg" +:+ newline)
             state0).
Proof.
  refine (err_default_placeholders state0 None RESULT_BAD_PARAM None None
            "bad arg" [] "bad arg" (installed_none state0 eq_refl) _
            eq_refl eq_refl I).
  unfold tm_valid. cbn. lia.
Defined.

(** * Further properties of the code *)

(** ** Preparations *)

Section MoreRunning.

Lemma length_append (a b : string) :
  String.length (a +:+ b) = (String.length a + String.length b)%nat.
Proof.
  induction a as [|c a IH]; [reflexivity|].
  change (S (String.length (a +:+ b)) = S (String.length a + String.length b)).
  now rewrite IH.
Qed.

Lemma fixed_digits_length (base : N) (k : nat) (n : N) (acc : string) :
  String.length (fixed_digits base k n acc) = (k + String.length acc)%nat.
Proof.
  revert n acc. induction k as [|k IH]; intros n acc; [reflexivity|].
  cbn [fixed_digits]. rewrite IH, length_String. lia.
Qed.

Lemma hh_mm_ss_length (t : tm) : String.length (hh_mm_ss t) = 8%nat.
Proof.
  unfold hh_mm_ss, two_digits.
  rewrite !length_append, !fixed_digits_length. reflexivity.
Qed.

(** A text without conversions is printed as it is, whatever the arguments. *)
Lemma vformat_literal (s : string) (args : va_list) :
  no_percent s = true -> vformat s args = Some s.
Proof.
  unfold vformat. induction s as [|c s IH]; [reflexivity|].
  cbn [no_percent vformat_from]. intros H.
  apply andb_prop in H as [Hc Hs].
  destruct (Ascii.eqb c "%"); [discriminate|].
  now rewrite (IH Hs).
Qed.

Lemma no_percent_append (a b : string) :
  no_percent (a +:+ b) = no_percent a && no_percent b.
Proof.
  induction a as [|c a IH]; [reflexivity|].
  change (negb (Ascii.eqb c "%") && no_percent (a +:+ b)
          = negb (Ascii.eqb c "%") && no_percent a && no_percent b).
  rewrite IH. now destruct (negb (Ascii.eqb c "%")).
Qed.

Lemma vformat_pass_error (pass : result_t) :
  vformat "Callback trace, passing: [%08x]." [VInt pass]
  = Some ("Callback trace, passing: [" +:+ hex8 pass +:+ "].").
Proof.
  transitivity (Some ("Callback trace, passing: [" +:+ conv_x true 8 pass +:+ "]."));
    [reflexivity|].
  now rewrite conv_x_hex8.
Qed.

Lemma tm_zero_valid : tm_valid tm_zero.
Proof. unfold tm_valid, tm_zero. cbn. lia. Qed.

End MoreRunning.

Section ErrReports.

Variable user_err_fn :
  nat -> result_t -> option string -> option string -> option string ->
  va_list -> world -> outcome world unit.

Variables (s : state) (o : option result_config_t).
Hypothesis Hinst : installed s o.
Hypothesis Hon : do_err (resolved Lurk.result_config_default o) = true.
Hypothesis Hfn : err_fn (resolved Lurk.result_config_default o) = Some Fn_err_default.
Hypothesis Htime : tm_valid (current_time s).
Hypothesis Hw : can_write 3 (stderr (env s)).

Lemma lurk_err_reports (r : result_t) (caller loc : option string) (fmt : string)
  (args : va_list) (msg : string) :
  vformat fmt args = Some msg ->
  Lurk.lurk_err user_err_fn r caller loc (Some fmt) args s
  = Returns r
      (print Stderr 3
         (err_line (current_time s) r
            (text (projname (resolved Lurk.result_config_default o)))
            (default "(unknown)"%string caller) (default "???"%string loc)
            (text (prefix (resolved Lurk.result_config_default o))) msg
            (text (postfix (resolved Lurk.result_config_default o)))) s).
Proof.
  intros Hfmt.
  rewrite (lurk_err_dispatch user_err_fn s o Hinst), Hon, Hfn.
  cbn [Lurk.call_err_fn].
  now rewrite (bind_returns _ _ _ _ _
                 (err_default_writes_line s o Hinst Htime r caller loc fmt args msg
                    Hon Hfmt Hw)).
Qed.

End ErrReports.

(** ** The classification predicates together *)

(** X1: every named error is an error in the sense of [is_error]; the
    converse fails, -4 is an error that [is_lurk_err] does not name. *)
Theorem named_errors_are_errors :
  (forall r : result_t, is_lurk_err r = true -> is_error r = true) /\
  (exists r : result_t, is_error r = true /\ is_lurk_err r = false).
Proof.
  split.
  - intros r. unfold is_lurk_err, is_error.
    destruct (Z.eqb_spec r RESULT_INVALID_OBJECT) as [->|_]; [reflexivity|].
    destruct (Z.eqb_spec r RESULT_INTERNAL_ERROR) as [->|_]; [reflexivity|].
    destruct (Z.eqb_spec r RESULT_BAD_PARAM) as [->|_]; [reflexivity|discriminate].
  - exists (-4). split; reflexivity.
Qed.

Lemma named_errors_are_errors_witness : is_error RESULT_INTERNAL_ERROR = true.
Proof.
  exact (proj1 named_errors_are_errors RESULT_INTERNAL_ERROR eq_refl).
Defined.

(** X2: a result is an error, or the success value, or positive, and never
    two of these; an error satisfies none of the other predicates, the
    failure value is neither an error nor a success, and no result is both
    true and false. *)
Theorem classification_is_exclusive (r : result_t) :
  (is_error r = true /\ is_success r = false /\ is_valid_object r = false /\
   is_failure r = false /\ is_true r = false /\ is_false r = false /\ r < 0) \/
  (is_error r = false /\ is_success r = true /\ is_failure r = false /\
   is_lurk_err r = false /\ r = 0) \/
  (is_error r = false /\ is_success r = false /\ is_lurk_err r = false /\
   is_false r = false /\ 0 < r /\ (is_failure r = true <-> r = RESULT_FAILURE)).
Proof.
  unfold is_error, is_success, is_valid_object, is_failure, is_true, is_false,
    is_lurk_err, RESULT_VALID_OBJECT, RESULT_TRUE, RESULT_FALSE, c_true, c_false,
    RESULT_SUCCESS, RESULT_FAILURE, RESULT_INVALID_OBJECT, RESULT_INTERNAL_ERROR,
    RESULT_BAD_PARAM.
  destruct (Z.ltb_spec r 0) as [Hneg|Hpos].
  - left.
    destruct (Z.eqb_spec r 0); [lia|]. destruct (Z.eqb_spec r 1); [lia|].
    repeat split; assumption.
  - right.
    destruct (Z.eqb_spec r 0) as [->|Hnz].
    + left. repeat split.
    + right.
      destruct (Z.eqb_spec r (-2)); [lia|]. destruct (Z.eqb_spec r (-3)); [lia|].
      destruct (Z.eqb_spec r (-1)); [lia|].
      destruct (Z.eqb_spec r 1) as [->|H1]; repeat split; try lia; try discriminate;
        auto.
Qed.

(** ** The reporters and the entry points of result.c *)

(** X3: with the log channel on, a time in range and a standard output
    that takes three writes, [log_default] of result.c adds exactly the line
    [HH:MM:SS  <8 hex digits>  [<project>]  <prefix><message><postfix>] to
    standard output, for every configuration in force, and returns. *)
Theorem log_default_line (s : state) (o : option result_config_t) (r : result_t)
  (fmt : string) (args : va_list) (msg : string) :
  installed s o ->
  tm_valid (current_time s) ->
  do_log (resolved Lurk.result_config_default o) = true ->
  vformat fmt args = Some msg ->
  can_write 3 (stdout (env s)) ->
  let cfg := resolved Lurk.result_config_default o in
  Lurk.log_default r (Some fmt) args s
  = Returns tt
      (print Stdout 3
         (hh_mm_ss (current_time s) +:+ "  " +:+ hex8 r +:+ "  [" +:+
          text (projname cfg) +:+ "]  " +:+
          text (prefix cfg) +:+ msg +:+ text (postfix cfg)) s) /\
  String.length (hex8 r) = 8%nat /\
  String.length (hh_mm_ss (current_time s)) = 8%nat.
Proof.
  intros Hinst Htime Hon Hfmt Hw cfg.
  split; [|split; [apply hex8_length | apply hh_mm_ss_length]].
  exact (log_default_writes_line s o Hinst Htime r fmt args msg Hon Hfmt Hw).
Qed.

Lemma log_default_line_witness :
  Lurk.log_default RESULT_FAILURE (Some "queue %s"%string) [VStr (Some "empty"%string)]
                   state_decorated
  = Returns tt
      (print Stdout 3 ("12:34:56  00000001  [app]  >> queue empty <<" +:+ newline)
             state_decorated).
Proof.
  refine (proj1 (log_default_line state_decorated (Some config_decorated)
                   RESULT_FAILURE "queue %s" [VStr (Some "empty"%string)]
                   "queue empty"
                   (installed_some state_decorated 1%positive _ eq_refl eq_refl)
                   _ eq_refl eq_refl I)).
  unfold tm_valid. cbn. lia.
Defined.

(** X4: with the channel on and the default reporter in force, [lurk_log]
    and [lurk_err] of result.c do return: the line is on the stream of the
    channel and the value is [result]. *)
Theorem entry_points_report_and_return
  (user_log_fn : nat -> result_t -> option string -> va_list -> world ->
                 outcome world unit)
  (user_err_fn : nat -> result_t -> option string -> option string ->
                 option string -> va_list -> world -> outcome world unit)
  (s : state) (o : option result_config_t) (r : result_t)
  (caller loc : option string) (fmt : string) (args : va_list) (msg : string) :
  installed s o ->
  tm_valid (current_time s) ->
  vformat fmt args = Some msg ->
  let cfg := resolved Lurk.result_config_default o in
  (do_log cfg = true -> log_fn cfg = Some Fn_log_default ->
   can_write 3 (stdout (env s)) ->
   Lurk.lurk_log user_log_fn r (Some fmt) args s
   = Returns r
       (print Stdout 3
          (log_line (current_time s) r (text (projname cfg)) (text (prefix cfg))
                    msg (text (postfix cfg))) s)) /\
  (do_err cfg = true -> err_fn cfg = Some Fn_err_default ->
   can_write 3 (stderr (env s)) ->
   Lurk.lurk_err user_err_fn r caller loc (Some fmt) args s
   = Returns r
       (print Stderr 3
          (err_line (current_time s) r (text (projname cfg))
                    (default "(unknown)"%string caller) (default "???"%string loc)
                    (text (prefix cfg)) msg (text (postfix cfg))) s)).
Proof.
  intros Hinst Htime Hfmt cfg. split.
  - intros Hon Hfn Hw.
    exact (lurk_log_reports user_log_fn s o Hinst Hon r fmt args msg Hfn Htime Hfmt Hw).
  - intros Hon Hfn Hw.
    exact (lurk_err_reports user_err_fn s o Hinst Hon Hfn Htime Hw r caller loc
             fmt args msg Hfmt).
Qed.

Lemma entry_points_report_and_return_witness :
  Lurk.lurk_log echo_log_fn RESULT_DONE (Some "step %d"%string) [VInt 7] state_decorated
  = Returns RESULT_DONE
      (print Stdout 3 ("12:34:56  00000002  [app]  >> step 7 <<" +:+ newline)
             state_decorated) /\
  Lurk.lurk_err echo_err_fn RESULT_DONE (Some "main"%string) None
                (Some "step %d"%string) [VInt 7] state_decorated
  = Returns RESULT_DONE
      (print Stderr 3 ("12:34:56  00000002  [app:main.???]  >> step 7 <<" +:+ newline)
             state_decorated).
Proof.
  assert (Htime : tm_valid (current_time state_decorated))
    by (unfold tm_valid; cbn; lia).
  destruct (entry_points_report_and_return echo_log_fn echo_err_fn state_decorated
              (Some config_decorated) RESULT_DONE (Some "main"%string) None
              "step %d" [VInt 7] "step 7"
              (installed_some state_decorated 1%positive _ eq_refl eq_refl)
              Htime eq_refl) as [Hlog Herr].
  split; [exact (Hlog eq_refl eq_refl I) | exact (Herr eq_refl eq_refl I)].
Defined.

(** X5: with a channel off, its entry point returns [result] at once in the
    state it was called in: nothing is printed and no handler runs, whatever
    handler the configuration names; the reporters called directly print
    nothing either. *)
Theorem disabled_channel_is_silent
  (user_log_fn : nat -> result_t -> option string -> va_list -> world ->
                 outcome world unit)
  (user_err_fn : nat -> result_t -> option string -> option string ->
                 option string -> va_list -> world -> outcome world unit)
  (s : state) (o : option result_config_t) (r : result_t)
  (caller loc fmt : option string) (args : va_list) :
  installed s o ->
  let cfg := resolved Lurk.result_config_default o in
  (do_log cfg = false ->
   Lurk.lurk_log user_log_fn r fmt args s = Returns r s /\
   Lurk.log_default r fmt args s = Returns tt s) /\
  (do_err cfg = false ->
   Lurk.lurk_err user_err_fn r caller loc fmt args s = Returns r s /\
   Lurk.err_default r caller loc fmt args s = Returns tt s).
Proof.
  intros Hinst cfg. split; intros Hoff; (destruct fmt as [fmt|]; [|now split]).
  - split.
    + rewrite (lurk_log_dispatch user_log_fn s o Hinst). fold cfg. now rewrite Hoff.
    + unfold Lurk.log_default.
      run_with (get_config_do_log_resolved s o Hinst). fold cfg. now rewrite Hoff.
  - split.
    + rewrite (lurk_err_dispatch user_err_fn s o Hinst). fold cfg. now rewrite Hoff.
    + unfold Lurk.err_default.
      run_with (get_config_do_err_resolved s o Hinst). fold cfg. now rewrite Hoff.
Qed.

Lemma disabled_channel_is_silent_witness :
  (Lurk.lurk_log echo_log_fn RESULT_DONE (Some "step"%string) [] state_app
   = Returns RESULT_DONE state_app /\
   Lurk.log_default RESULT_DONE (Some "step"%string) [] state_app
   = Returns tt state_app) /\
  (Lurk.lurk_err echo_err_fn RESULT_DONE None None (Some "step"%string) [] state_app
   = Returns RESULT_DONE state_app /\
   Lurk.err_default RESULT_DONE None None (Some "step"%string) [] state_app
   = Returns tt state_app).
Proof.
  destruct (disabled_channel_is_silent echo_log_fn echo_err_fn state_app
              (Some (config_only_projname "app")) RESULT_DONE None None
              (Some "step"%string) []
              (installed_some state_app 1%positive _ eq_refl eq_refl))
    as [Hlog Herr].
  split; [exact (Hlog eq_refl) | exact (Herr eq_refl)].
Defined.

(** X6: with a channel on and a client handler installed for it, the entry
    point is that handler and nothing else: the default reporter is not
    called, the world after the call is the one the handler left, the value
    is [result], and a handler that aborts or misbehaves takes the entry
    point with it. *)
Theorem client_handler_replaces_reporter
  (user_log_fn : nat -> result_t -> option string -> va_list -> world ->
                 outcome world unit)
  (user_err_fn : nat -> result_t -> option string -> option string ->
                 option string -> va_list -> world -> outcome world unit)
  (s : state) (o : option result_config_t) (r : result_t)
  (caller loc : option string) (fmt : string) (args : va_list) (id : nat) :
  installed s o ->
  let cfg := resolved Lurk.result_config_default o in
  (do_log cfg = true -> log_fn cfg = Some (Fn_log_user id) ->
   Lurk.lurk_log user_log_fn r (Some fmt) args s
   = handled s r (user_log_fn id r (Some fmt) args (env s))) /\
  (do_err cfg = true -> err_fn cfg = Some (Fn_err_user id) ->
   Lurk.lurk_err user_err_fn r caller loc (Some fmt) args s
   = handled s r (user_err_fn id r caller loc (Some fmt) args (env s))).
Proof.
  intros Hinst cfg. split; intros Hon Hfn.
  - rewrite (lurk_log_dispatch user_log_fn s o Hinst). fold cfg. rewrite Hon, Hfn.
    cbn [Lurk.call_log_fn]. unfold bind, lift_world, handled, ret.
    now destruct (user_log_fn id r (Some fmt) args (env s)).
  - rewrite (lurk_err_dispatch user_err_fn s o Hinst). fold cfg. rewrite Hon, Hfn.
    cbn [Lurk.call_err_fn]. unfold bind, lift_world, handled, ret.
    now destruct (user_err_fn id r caller loc (Some fmt) args (env s)).
Qed.

Lemma client_handler_replaces_reporter_witness :
  Lurk.lurk_log echo_log_fn RESULT_DONE (Some "step %d"%string) [VInt 7] state_handlers
  = Returns RESULT_DONE (print Stdout 1 "step %d" state_handlers) /\
  Lurk.lurk_err echo_err_fn RESULT_DONE None None (Some "step %d"%string) [VInt 7]
                state_handlers
  = Returns RESULT_DONE (print Stderr 1 "step %d" state_handlers).
Proof.
  destruct (client_handler_replaces_reporter echo_log_fn echo_err_fn state_handlers
              (Some config_handlers) RESULT_DONE None None "step %d" [VInt 7] 0%nat
              (installed_some state_handlers 1%positive _ eq_refl eq_refl))
    as [Hlog Herr].
  split; [exact (Hlog eq_refl eq_refl) | exact (Herr eq_refl eq_refl)].
Defined.

(** X7: the entry points never hand a null format to a handler: two tables
    of client handlers that agree on every non-null format make [lurk_log]
    and [lurk_err] behave alike on every call, null format included. *)
Theorem handlers_never_see_null_format
  (log_fn1 log_fn2 : nat -> result_t -> option string -> va_list -> world ->
                     outcome world unit)
  (err_fn1 err_fn2 : nat -> result_t -> option string -> option string ->
                     option string -> va_list -> world -> outcome world unit) :
  (forall id r fmt args w,
      log_fn1 id r (Some fmt) args w = log_fn2 id r (Some fmt) args w) ->
  (forall id r caller loc fmt args w,
      err_fn1 id r caller loc (Some fmt) args w
      = err_fn2 id r caller loc (Some fmt) args w) ->
  forall (r : result_t) (caller loc fmt : option string) (args : va_list) (s : state),
    Lurk.lurk_log log_fn1 r fmt args s = Lurk.lurk_log log_fn2 r fmt args s /\
    Lurk.lurk_err err_fn1 r caller loc fmt args s
    = Lurk.lurk_err err_fn2 r caller loc fmt args s.
Proof.
  intros Hlog Herr r caller loc fmt args s.
  destruct fmt as [fmt|]; [|now split].
  split.
  - unfold Lurk.lurk_log, bind.
    destruct (Lurk.get_config_do_log s) as [[|] s1| |]; cbn [negb]; try reflexivity.
    destruct (Lurk.get_config_log_fn s1) as [[[|id]|] s2| |]; try reflexivity.
    unfold Lurk.call_log_fn, lift_world. now rewrite Hlog.
  - unfold Lurk.lurk_err, bind.
    destruct (Lurk.get_config_do_err s) as [[|] s1| |]; cbn [negb]; try reflexivity.
    destruct (Lurk.get_config_err_fn s1) as [[[|id]|] s2| |]; try reflexivity.
    unfold Lurk.call_err_fn, lift_world. now rewrite Herr.
Qed.

Lemma handlers_never_see_null_format_witness :
  Lurk.lurk_log echo_log_fn RESULT_DONE None [] state_handlers
  = Lurk.lurk_log lenient_log_fn RESULT_DONE None [] state_handlers /\
  Lurk.lurk_err echo_err_fn RESULT_DONE None None (Some "step"%string) [] state_handlers
  = Lurk.lurk_err lenient_err_fn RESULT_DONE None None (Some "step"%string) []
                  state_handlers.
Proof.
  destruct (handlers_never_see_null_format echo_log_fn lenient_log_fn
              echo_err_fn lenient_err_fn
              (fun _ _ _ _ _ => eq_refl) (fun _ _ _ _ _ _ _ => eq_refl)
              RESULT_DONE None None None [] state_handlers) as [Hlog _].
  destruct (handlers_never_see_null_format echo_log_fn lenient_log_fn
              echo_err_fn lenient_err_fn
              (fun _ _ _ _ _ => eq_refl) (fun _ _ _ _ _ _ _ => eq_refl)
              RESULT_DONE None None (Some "step"%string) [] state_handlers)
    as [_ Herr].
  split; [exact Hlog | exact Herr].
Defined.



(** X9: when [gmtime] fails, [get_time] answers the zeroed [struct tm] and
    the reporters still print their line, with the time [00:00:00]. *)
Theorem failed_gmtime_prints_zero_time (s : state) (o : option result_config_t)
  (r : result_t) (caller loc : option string) (fmt : string) (args : va_list)
  (msg : string) :
  gmtime_now (env s) = None ->
  installed s o ->
  vformat fmt args = Some msg ->
  let cfg := resolved Lurk.result_config_default o in
  get_time s = Returns tm_zero s /\
  (do_log cfg = true -> can_write 3 (stdout (env s)) ->
   Lurk.log_default r (Some fmt) args s
   = Returns tt
       (print Stdout 3
          ("00:00:00  " +:+ hex8 r +:+ "  [" +:+ text (projname cfg) +:+ "]  " +:+
           text (prefix cfg) +:+ msg +:+ text (postfix cfg)) s)) /\
  (do_err cfg = true -> can_write 3 (stderr (env s)) ->
   Lurk.err_default r caller loc (Some fmt) args s
   = Returns tt
       (print Stderr 3
          ("00:00:00  " +:+ hex8 r +:+ "  [" +:+ text (projname cfg) +:+ ":" +:+
           default "(unknown)"%string caller +:+ "." +:+ default "???"%string loc +:+
           "]  " +:+ text (prefix cfg) +:+ msg +:+ text (postfix cfg)) s)).
Proof.
  intros Hclock Hinst Hfmt cfg.
  assert (Hzero : current_time s = tm_zero) by (unfold current_time; now rewrite Hclock).
  assert (Htime : tm_valid (current_time s)) by (rewrite Hzero; apply tm_zero_valid).
  split; [|split].
  - unfold get_time. now rewrite Hclock.
  - intros Hon Hw.
    rewrite (log_default_writes_line s o Hinst Htime r fmt args msg Hon Hfmt Hw).
    rewrite Hzero. reflexivity.
  - intros Hon Hw.
    rewrite (err_default_writes_line s o Hinst Htime r caller loc fmt args msg
               Hon Hfmt Hw).
    rewrite Hzero. reflexivity.
Qed.

Lemma failed_gmtime_prints_zero_time_witness :
  Lurk.log_default RESULT_DONE (Some "step"%string) [] state_no_clock
  = Returns tt
      (print Stdout 3 ("00:00:00  00000002  [lurk]  step" +:+ newline) state_no_clock).
Proof.
  exact (proj1 (proj2 (failed_gmtime_prints_zero_time state_no_clock None RESULT_DONE
                         None None "step" [] "step" eq_refl
                         (installed_none state_no_clock eq_refl) eq_refl))
           eq_refl I).
Defined.

(** ** Configuration records in the client's memory *)

Section DefaultsInstalled.

Variables (s : state) (p : positive).
Hypothesis Hptr : result_config s = Some p.
Hypothesis Hrec : heap (env s) !! p = Some Lurk.result_config_default.

(** An installed record that holds the defaults resolves to the defaults. *)
Lemma installed_defaults_resolve :
  Lurk.get_config_projname s = Returns (projname Lurk.result_config_default) s /\
  Lurk.get_config_prefix s = Returns (prefix Lurk.result_config_default) s /\
  Lurk.get_config_postfix s = Returns (postfix Lurk.result_config_default) s /\
  Lurk.get_config_do_log s = Returns (do_log Lurk.result_config_default) s /\
  Lurk.get_config_do_err s = Returns (do_err Lurk.result_config_default) s /\
  Lurk.get_config_log_fn s = Returns (log_fn Lurk.result_config_default) s /\
  Lurk.get_config_err_fn s = Returns (err_fn Lurk.result_config_default) s.
Proof.
  pose proof (installed_some s p _ Hptr Hrec) as Hinst.
  rewrite (get_config_projname_resolved s _ Hinst),
          (get_config_prefix_resolved s _ Hinst),
          (get_config_postfix_resolved s _ Hinst),
          (get_config_log_fn_resolved s _ Hinst),
          (get_config_err_fn_resolved s _ Hinst),
          (get_config_do_log_resolved s _ Hinst),
          (get_config_do_err_resolved s _ Hinst).
  repeat split.
Qed.

End DefaultsInstalled.

(** X10: [lurk_get_defaults] into a record of the client followed by
    [lurk_set_result_config] of that record succeeds and leaves the library
    resolving every field to the compiled-in default; the streams and every
    other record of the client are as before. *)
Theorem populate_then_install_resolves_defaults
  (user_err_fn : nat -> result_t -> option string -> option string ->
                 option string -> va_list -> world -> outcome world unit)
  (line : string) (s : state) (p : positive) (old : result_config_t) :
  heap (env s) !! p = Some old ->
  exists s' : state,
    (Lurk.lurk_get_defaults user_err_fn line (Some p) ;;
     Lurk.lurk_set_result_config (Some p)) s = Returns RESULT_SUCCESS s' /\
    Lurk.get_config_projname s' = Returns (projname Lurk.result_config_default) s' /\
    Lurk.get_config_prefix s' = Returns (prefix Lurk.result_config_default) s' /\
    Lurk.get_config_postfix s' = Returns (postfix Lurk.result_config_default) s' /\
    Lurk.get_config_do_log s' = Returns (do_log Lurk.result_config_default) s' /\
    Lurk.get_config_do_err s' = Returns (do_err Lurk.result_config_default) s' /\
    Lurk.get_config_log_fn s' = Returns (log_fn Lurk.result_config_default) s' /\
    Lurk.get_config_err_fn s' = Returns (err_fn Lurk.result_config_default) s' /\
    stdout (env s') = stdout (env s) /\ stderr (env s') = stderr (env s) /\
    forall q : positive, q <> p -> heap (env s') !! q = heap (env s) !! q.
Proof.
  intros Hp.
  set (s1 := mkState (Some p)
               (mkWorld (<[p := Lurk.result_config_default]> (heap (env s)))
                        (stdout (env s)) (stderr (env s)) (gmtime_now (env s)))).
  exists s1. split.
  { unfold Lurk.lurk_get_defaults, Lurk.lurk_set_result_config, bind, store_config,
      ret.
    rewrite Hp. reflexivity. }
  assert (Hrec : heap (env s1) !! p = Some Lurk.result_config_default)
    by apply lookup_insert_eq.
  destruct (installed_defaults_resolve s1 p eq_refl Hrec)
    as (H1 & H2 & H3 & H4 & H5 & H6 & H7).
  repeat (split; [assumption|]).
  split; [reflexivity|]. split; [reflexivity|].
  intros q Hq. cbn [s1 env heap]. now apply lookup_insert_ne.
Qed.

Lemma populate_then_install_resolves_defaults_witness :
  exists s' : state,
    (Lurk.lurk_get_defaults quiet_err_fn "133" (Some 1%positive) ;;
     Lurk.lurk_set_result_config (Some 1%positive)) state_app
    = Returns RESULT_SUCCESS s' /\
    Lurk.get_config_do_log s' = Returns true s'.
Proof.
  destruct (populate_then_install_resolves_defaults quiet_err_fn "133" state_app
              1%positive (config_only_projname "app") eq_refl)
    as (s' & Hrun & _ & _ & _ & Hlog & _).
  exists s'. split; [exact Hrun | exact Hlog].
Defined.

(** X11: the destination of [lurk_get_defaults] may be the very record that
    is installed.  The call then rewrites the override in force: the static
    pointer is the same, yet every field now resolves to the default,
    whatever the record held, so channels it had turned off are on again. *)
Theorem get_defaults_into_installed_record
  (user_err_fn : nat -> result_t -> option string -> option string ->
                 option string -> va_list -> world -> outcome world unit)
  (line : string) (s : state) (p : positive) (cfg : result_config_t) :
  result_config s = Some p ->
  heap (env s) !! p = Some cfg ->
  exists s' : state,
    Lurk.lurk_get_defaults user_err_fn line (Some p) s = Returns RESULT_SUCCESS s' /\
    result_config s' = result_config s /\
    Lurk.get_config_projname s' = Returns (projname Lurk.result_config_default) s' /\
    Lurk.get_config_prefix s' = Returns (prefix Lurk.result_config_default) s' /\
    Lurk.get_config_postfix s' = Returns (postfix Lurk.result_config_default) s' /\
    Lurk.get_config_do_log s' = Returns true s' /\
    Lurk.get_config_do_err s' = Returns true s' /\
    Lurk.get_config_log_fn s' = Returns (Some Fn_log_default) s' /\
    Lurk.get_config_err_fn s' = Returns (Some Fn_err_default) s'.
Proof.
  intros Hptr Hp.
  set (s1 := mkState (result_config s)
               (mkWorld (<[p := Lurk.result_config_default]> (heap (env s)))
                        (stdout (env s)) (stderr (env s)) (gmtime_now (env s)))).
  exists s1. split.
  { unfold Lurk.lurk_get_defaults, bind, store_config, ret. rewrite Hp. reflexivity. }
  split; [reflexivity|].
  assert (Hrec : heap (env s1) !! p = Some Lurk.result_config_default)
    by apply lookup_insert_eq.
  exact (installed_defaults_resolve s1 p Hptr Hrec).
Qed.

Lemma get_defaults_into_installed_record_witness :
  exists s' : state,
    Lurk.lurk_get_defaults quiet_err_fn "133" (Some 1%positive) state_app
    = Returns RESULT_SUCCESS s' /\
    Lurk.get_config_do_log state_app = Returns false state_app /\
    Lurk.get_config_do_log s' = Returns true s'.
Proof.
  destruct (get_defaults_into_installed_record quiet_err_fn "133" state_app
              1%positive (config_only_projname "app") eq_refl eq_refl)
    as (s' & Hrun & _ & _ & _ & _ & Hlog & _).
  exists s'. split; [exact Hrun|]. split; [reflexivity | exact Hlog].
Defined.

(** ** The macros of result.h *)

(** X12: whenever it returns, a [RETURN_*] macro yields its result code, in
    every configuration and with every handler: the three parameter and
    object macros and the internal-error macro yield named errors, the trace
    and generic macros the result they were given. *)
Theorem return_macros_yield_their_code
  (user_err_fn : nat -> result_t -> option string -> option string ->
                 option string -> va_list -> world -> outcome world unit)
  (func line : string) :
  (forall param, returns_only RESULT_BAD_PARAM
                   (Lurk.RETURN_BAD_PARAM user_err_fn func line param)) /\
  (forall param, returns_only RESULT_BAD_PARAM
                   (Lurk.RETURN_BAD_PARAM_NULL user_err_fn func line param)) /\
  (forall obj, returns_only RESULT_INVALID_OBJECT
                 (Lurk.RETURN_INVALID_OBJECT user_err_fn func line obj)) /\
  (forall obj member, returns_only RESULT_INVALID_OBJECT
                 (Lurk.RETURN_INVALID_OBJECT_MEMBER user_err_fn func line obj member)) /\
  (forall obj members, returns_only RESULT_INVALID_OBJECT
                 (Lurk.RETURN_INVALID_OBJECT_MEMBERS user_err_fn func line obj members)) /\
  returns_only RESULT_INTERNAL_ERROR (Lurk.RETURN_INTERNAL_ERROR user_err_fn func line) /\
  (forall result, returns_only result
                    (Lurk.RETURN_TRACE_ERROR user_err_fn func line result)) /\
  (forall result pass, returns_only result
                    (Lurk.RETURN_PASS_ERROR user_err_fn func line result pass)) /\
  (forall result err, returns_only result
                    (Lurk.RETURN_ERROR user_err_fn func line result err)) /\
  (forall result err args, returns_only result
                    (Lurk.RETURN_ERROR_FMT user_err_fn func line result err args)) /\
  is_lurk_err RESULT_BAD_PARAM = true /\ is_lurk_err RESULT_INVALID_OBJECT = true /\
  is_lurk_err RESULT_INTERNAL_ERROR = true.
Proof.
  repeat split; intros; apply lurk_err_returns_result.
Qed.

(** X13: under the default reporter [RETURN_PASS_ERROR(result, pass)]
    returns [result] and adds the line
    [HH:MM:SS  <result>  [<project>:<function>.<line>]  <prefix>Callback trace, passing: [<pass>].<postfix>]
    to standard error, [pass] being printed as eight hexadecimal digits. *)
Theorem return_pass_error_line
  (user_err_fn : nat -> result_t -> option string -> option string ->
                 option string -> va_list -> world -> outcome world unit)
  (func line : string) (result pass : result_t)
  (s : state) (o : option result_config_t) :
  installed s o ->
  tm_valid (current_time s) ->
  do_err (resolved Lurk.result_config_default o) = true ->
  err_fn (resolved Lurk.result_config_default o) = Some Fn_err_default ->
  can_write 3 (stderr (env s)) ->
  let cfg := resolved Lurk.result_config_default o in
  Lurk.RETURN_PASS_ERROR user_err_fn func line result pass s
  = Returns result
      (print Stderr 3
         (hh_mm_ss (current_time s) +:+ "  " +:+ hex8 result +:+ "  [" +:+
          text (projname cfg) +:+ ":" +:+ func +:+ "." +:+ line +:+ "]  " +:+
          text (prefix cfg) +:+ "Callback trace, passing: [" +:+ hex8 pass +:+ "]." +:+
          text (postfix cfg)) s).
Proof.
  intros Hinst Htime Hon Hfn Hw cfg. unfold Lurk.RETURN_PASS_ERROR.
  rewrite (lurk_err_reports user_err_fn s o Hinst Hon Hfn Htime Hw result
             (Some func) (Some line) _ _ _ (vformat_pass_error pass)).
  unfold err_line. cbn [default]. fold cfg.
  now rewrite !append_assoc.
Qed.

Lemma return_pass_error_line_witness :
  Lurk.RETURN_PASS_ERROR quiet_err_fn "pop" "42" RESULT_INTERNAL_ERROR RESULT_DONE state0
  = Returns RESULT_INTERNAL_ERROR
      (print Stderr 3
         ("12:34:56  fffffffd  [lurk:pop.42]  Callback trace, passing: [00000002]."
          +:+ newline) state0).
Proof.
  refine (return_pass_error_line quiet_err_fn "pop" "42" RESULT_INTERNAL_ERROR
            RESULT_DONE state0 None (installed_none state0 eq_refl) _
            eq_refl eq_refl I).
  unfold tm_valid. cbn. lia.
Defined.

(** X14: the names a macro stringizes become part of the format.  When they
    hold no ['%'], [RETURN_BAD_PARAM(param)] and
    [RETURN_INVALID_OBJECT_MEMBER(obj, member)] print them as they are, in
    [Bad parameter [<param>].] and [Invalid object member [<obj>.<member>].],
    and return their code. *)
Theorem parameter_macros_print_names
  (user_err_fn : nat -> result_t -> option string -> option string ->
                 option string -> va_list -> world -> outcome world unit)
  (func line param obj member : string) (s : state) (o : option result_config_t) :
  installed s o ->
  tm_valid (current_time s) ->
  do_err (resolved Lurk.result_config_default o) = true ->
  err_fn (resolved Lurk.result_config_default o) = Some Fn_err_default ->
  can_write 3 (stderr (env s)) ->
  let cfg := resolved Lurk.result_config_default o in
  let tag := ("  [" +:+ text (projname cfg) +:+ ":" +:+ func +:+ "." +:+ line +:+
              "]  " +:+ text (prefix cfg))%string in
  (no_percent param = true ->
   Lurk.RETURN_BAD_PARAM user_err_fn func line param s
   = Returns RESULT_BAD_PARAM
       (print Stderr 3
          (hh_mm_ss (current_time s) +:+ "  " +:+ hex8 RESULT_BAD_PARAM +:+ tag +:+
           "Bad parameter [" +:+ param +:+ "]." +:+ text (postfix cfg)) s)) /\
  (no_percent obj = true -> no_percent member = true ->
   Lurk.RETURN_INVALID_OBJECT_MEMBER user_err_fn func line obj member s
   = Returns RESULT_INVALID_OBJECT
       (print Stderr 3
          (hh_mm_ss (current_time s) +:+ "  " +:+ hex8 RESULT_INVALID_OBJECT +:+ tag +:+
           "Invalid object member [" +:+ obj +:+ "." +:+ member +:+ "]." +:+
           text (postfix cfg)) s)).
Proof.
  intros Hinst Htime Hon Hfn Hw cfg tag. split.
  - intros Hparam. unfold Lurk.RETURN_BAD_PARAM.
    assert (Hfmt : vformat ("Bad parameter [" +:+ param +:+ "].") []
                   = Some ("Bad parameter [" +:+ param +:+ "].")%string).
    { apply vformat_literal. rewrite !no_percent_append, Hparam. reflexivity. }
    rewrite (lurk_err_reports user_err_fn s o Hinst Hon Hfn Htime Hw RESULT_BAD_PARAM
               (Some func) (Some line) _ _ _ Hfmt).
    unfold err_line, tag. cbn [default]. fold cfg.
    now rewrite !append_assoc.
  - intros Hobj Hmember. unfold Lurk.RETURN_INVALID_OBJECT_MEMBER.
    assert (Hfmt : vformat ("Invalid object member [" +:+ obj +:+ "." +:+ member +:+ "].")
                           []
                   = Some ("Invalid object member [" +:+ obj +:+ "." +:+ member +:+
                           "].")%string).
    { apply vformat_literal. rewrite !no_percent_append, Hobj, Hmember. reflexivity. }
    rewrite (lurk_err_reports user_err_fn s o Hinst Hon Hfn Htime Hw
               RESULT_INVALID_OBJECT (Some func) (Some line) _ _ _ Hfmt).
    unfold err_line, tag. cbn [default]. fold cfg.
    now rewrite !append_assoc.
Qed.

Lemma parameter_macros_print_names_witness :
  Lurk.RETURN_BAD_PARAM quiet_err_fn "push" "17" "queue" state0
  = Returns RESULT_BAD_PARAM
      (print Stderr 3
         ("12:34:56  ffffffff  [lurk:push.17]  Bad parameter [queue]." +:+ newline)
         state0) /\
  Lurk.RETURN_INVALID_OBJECT_MEMBER quiet_err_fn "push" "17" "queue" "head" state0
  = Returns RESULT_INVALID_OBJECT
      (print Stderr 3
         ("12:34:56  fffffffe  [lurk:push.17]  Invalid object member [queue.head]."
          +:+ newline) state0).
Proof.
  assert (Htime : tm_valid (current_time state0)) by (unfold tm_valid; cbn; lia).
  destruct (parameter_macros_print_names quiet_err_fn "push" "17" "queue" "queue" "head"
              state0 None (installed_none state0 eq_refl) Htime eq_refl eq_refl I)
    as [Hparam Hmember].
  split; [exact (Hparam eq_refl) | exact (Hmember eq_refl eq_refl)].
Defined.

(** X15: [VALIDATE_OBJECT] and [VALIDATE_OBJECT_MEMBER] let the function go
    on exactly when the validator answered 0.  Every other answer, negative
    or positive, [RESULT_TRUE] included, leaves the function through the
    invalid-object macro, whose value is [RESULT_INVALID_OBJECT]; the rest
    of the function is not run.  [NULL_GUARD] goes on exactly when the
    pointer is not null. *)
Theorem guards_accept_only_zero
  (user_err_fn : nat -> result_t -> option string -> option string ->
                 option string -> va_list -> world -> outcome world unit)
  (func line obj memb : string) (check rest : M result_t)
  (s s1 : state) (v : result_t) :
  check s = Returns v s1 ->
  (v = 0 ->
   Lurk.VALIDATE_OBJECT user_err_fn func line check obj rest s = rest s1 /\
   Lurk.VALIDATE_OBJECT_MEMBER user_err_fn func line check obj memb rest s = rest s1) /\
  (v <> 0 ->
   Lurk.VALIDATE_OBJECT user_err_fn func line check obj rest s
   = Lurk.RETURN_INVALID_OBJECT user_err_fn func line obj s1 /\
   Lurk.VALIDATE_OBJECT_MEMBER user_err_fn func line check obj memb rest s
   = Lurk.RETURN_INVALID_OBJECT_MEMBER user_err_fn func line obj memb s1 /\
   match Lurk.VALIDATE_OBJECT user_err_fn func line check obj rest s with
   | Returns a _ => a = RESULT_INVALID_OBJECT
   | _ => True
   end) /\
  (forall (A : Type) (a : A) name,
      Lurk.NULL_GUARD user_err_fn func line (Some a) name rest = rest) /\
  (forall (A : Type) name,
      returns_only RESULT_BAD_PARAM
        (Lurk.NULL_GUARD user_err_fn func line (@None A) name rest)).
Proof.
  intros Hcheck.
  unfold Lurk.VALIDATE_OBJECT, Lurk.VALIDATE_OBJECT_MEMBER.
  rewrite !(bind_returns _ _ _ _ _ Hcheck).
  unfold is_valid_object, RESULT_VALID_OBJECT, RESULT_SUCCESS.
  split; [|split; [|split]].
  - intros ->. now split.
  - intros Hv. destruct (Z.eqb_spec v 0) as [?|_]; [contradiction|]. cbn [negb].
    repeat split. apply lurk_err_returns_result.
  - reflexivity.
  - intros A name. unfold Lurk.NULL_GUARD, Lurk.RETURN_BAD_PARAM_NULL.
    apply lurk_err_returns_result.
Qed.

Lemma guards_accept_only_zero_witness :
  Lurk.VALIDATE_OBJECT quiet_err_fn "push" "17" (ret RESULT_TRUE) "queue"
                       (ret RESULT_SUCCESS) state_app
  = Lurk.RETURN_INVALID_OBJECT quiet_err_fn "push" "17" "queue" state_app /\
  Lurk.VALIDATE_OBJECT quiet_err_fn "push" "17" (ret RESULT_FALSE) "queue"
                       (ret RESULT_DONE) state_app
  = Returns RESULT_DONE state_app.
Proof.
  split.
  - refine (proj1 (proj1 (proj2 (guards_accept_only_zero quiet_err_fn "push" "17"
                     "queue" "head" (ret RESULT_TRUE) (ret RESULT_SUCCESS)
                     state_app state_app RESULT_TRUE eq_refl)) _)).
    discriminate.
  - exact (proj1 (proj1 (guards_accept_only_zero quiet_err_fn "push" "17"
                     "queue" "head" (ret RESULT_FALSE) (ret RESULT_DONE)
                     state_app state_app RESULT_FALSE eq_refl) eq_refl)).
Defined.

(** ** What the reporters leave alone *)

Create HintDb leaves.

Section Leaves.

Context {B : Type} (part : world -> B).

Lemma leaves_ret {A : Type} (a : A) : leaves part (ret a).
Proof. intros s. reflexivity. Qed.

Lemma leaves_abort {A : Type} : leaves part (@abort A).
Proof. intros s. reflexivity. Qed.

Lemma leaves_bind {A C : Type} (c : M A) (k : A -> M C) :
  leaves part c -> (forall a, leaves part (k a)) -> leaves part (bind c k).
Proof.
  intros Hc Hk s. unfold bind. specialize (Hc s).
  destruct (c s) as [a s1|s1|]; [|exact Hc|exact I].
  specialize (Hk a s1). destruct (k a s1); congruence.
Qed.

Lemma leaves_reads_only {A : Type} (c : M A) : reads_only c -> leaves part c.
Proof.
  intros Hc s. destruct (Hc s) as [-> | [a ->]]; [exact I | reflexivity].
Qed.

Lemma leaves_fprintf (f : FILE) (fmt : string) (args : va_list) :
  (forall st w, part (with_stream f st w) = part w) ->
  leaves part (fprintf f fmt args).
Proof.
  intros Hpart s. unfold fprintf.
  destruct (vformat fmt args); [|exact I].
  destruct (stream_write _ _); [apply Hpart | reflexivity].
Qed.

Lemma leaves_vfprintf (f : FILE) (fmt : string) (args : va_list) :
  (forall st w, part (with_stream f st w) = part w) ->
  leaves part (vfprintf f fmt args).
Proof. apply leaves_fprintf. Qed.

End Leaves.

Ltac reads_getter :=
  let s := fresh "s" in
  intros s;
  match goal with
  | |- context [result_config s] =>
      destruct (result_config s) as [p|]; [|right; eexists; reflexivity];
      unfold bind, load_config, ret;
      destruct (heap (env s) !! p) as [cfg|]; [|left; reflexivity];
      right;
      repeat match goal with
             | |- context [match ?f cfg with _ => _ end] => destruct (f cfg)
             end; eexists; reflexivity
  end.

Section ReadsOnly.

Lemma reads_only_get_time : reads_only get_time.
Proof. intros s. right. eexists. apply get_time_returns. Qed.

Lemma reads_only_projname : reads_only Lurk.get_config_projname.
Proof. unfold Lurk.get_config_projname. reads_getter. Qed.

Lemma reads_only_prefix : reads_only Lurk.get_config_prefix.
Proof. unfold Lurk.get_config_prefix. reads_getter. Qed.

Lemma reads_only_postfix : reads_only Lurk.get_config_postfix.
Proof. unfold Lurk.get_config_postfix. reads_getter. Qed.

Lemma reads_only_do_log : reads_only Lurk.get_config_do_log.
Proof. unfold Lurk.get_config_do_log. reads_getter. Qed.

Lemma reads_only_do_err : reads_only Lurk.get_config_do_err.
Proof. unfold Lurk.get_config_do_err. reads_getter. Qed.

Lemma reads_only_log_fn : reads_only Lurk.get_config_log_fn.
Proof. unfold Lurk.get_config_log_fn. reads_getter. Qed.

Lemma reads_only_err_fn : reads_only Lurk.get_config_err_fn.
Proof. unfold Lurk.get_config_err_fn. reads_getter. Qed.

End ReadsOnly.

#[export] Hint Resolve leaves_ret leaves_abort : leaves.
#[export] Hint Extern 1 (leaves _ get_time) =>
  apply leaves_reads_only, reads_only_get_time : leaves.
#[export] Hint Extern 1 (leaves _ Lurk.get_config_projname) =>
  apply leaves_reads_only, reads_only_projname : leaves.
#[export] Hint Extern 1 (leaves _ Lurk.get_config_prefix) =>
  apply leaves_reads_only, reads_only_prefix : leaves.
#[export] Hint Extern 1 (leaves _ Lurk.get_config_postfix) =>
  apply leaves_reads_only, reads_only_postfix : leaves.
#[export] Hint Extern 1 (leaves _ Lurk.get_config_do_log) =>
  apply leaves_reads_only, reads_only_do_log : leaves.
#[export] Hint Extern 1 (leaves _ Lurk.get_config_do_err) =>
  apply leaves_reads_only, reads_only_do_err : leaves.
#[export] Hint Extern 1 (leaves _ (fprintf _ _ _)) =>
  apply leaves_fprintf; intros ? ?; reflexivity : leaves.
#[export] Hint Extern 1 (leaves _ (vfprintf _ _ _)) =>
  apply leaves_vfprintf; intros ? ?; reflexivity : leaves.

Ltac leaves_alone :=
  repeat first
    [ solve [auto with leaves]
    | apply leaves_bind; [ | intros ? ]
    | match goal with
      | |- leaves _ (if ?b then _ else _) => destruct b
      | |- leaves _ (match ?x with _ => _ end) => destruct x
      end ].

(** X16: the two channels do not mix and the client's records are read,
    never written.  On every path, returning or aborting, [log_default]
    leaves standard error and the configuration records as they were,
    [err_default] leaves standard output and the records as they were, and
    the seven getters change nothing at all. *)
Theorem reporters_keep_to_their_stream :
  (forall r fmt args,
      leaves stderr (Lurk.log_default r fmt args) /\
      leaves heap (Lurk.log_default r fmt args)) /\
  (forall r caller loc fmt args,
      leaves stdout (Lurk.err_default r caller loc fmt args) /\
      leaves heap (Lurk.err_default r caller loc fmt args)) /\
  reads_only Lurk.get_config_projname /\ reads_only Lurk.get_config_prefix /\
  reads_only Lurk.get_config_postfix /\ reads_only Lurk.get_config_do_log /\
  reads_only Lurk.get_config_do_err /\ reads_only Lurk.get_config_log_fn /\
  reads_only Lurk.get_config_err_fn.
Proof.
  split; [|split].
  - intros r fmt args. split; unfold Lurk.log_default; leaves_alone.
  - intros r caller loc fmt args. split; unfold Lurk.err_default; leaves_alone.
  - repeat split;
      [ apply reads_only_projname | apply reads_only_prefix | apply reads_only_postfix
      | apply reads_only_do_log | apply reads_only_do_err | apply reads_only_log_fn
      | apply reads_only_err_fn ].
Qed.

(** ** Where the two copies of result.c meet *)

Section CopiesCompared.

Lemma ending_bind_ext {A B C : Type} (c c' : M A) (k : A -> M B) (k' : A -> M C)
  (s : state) :
  c s = c' s ->
  (forall a s1, ending (k a s1) = ending (k' a s1)) ->
  ending (bind c k s) = ending (bind c' k' s).
Proof.
  intros Hc Hk. unfold bind. rewrite Hc.
  destruct (c' s) as [a s1|s1|]; [apply Hk | reflexivity | reflexivity].
Qed.

Lemma fprintf_same_text (f : FILE) (fmt1 fmt2 : string) (args1 args2 : va_list)
  (s : state) :
  vformat fmt1 args1 = vformat fmt2 args2 ->
  fprintf f fmt1 args1 s = fprintf f fmt2 args2 s.
Proof. intros H. unfold fprintf. now rewrite H. Qed.

Lemma log_headers_agree (t : tm) (r : result_t) (proj : string) :
  vformat "%02d:%02d:%02d  %08x  [%s]  %s"
          [VInt (tm_hour t); VInt (tm_min t); VInt (tm_sec t); VInt r;
           VStr (Some proj); VStr (Some EmptyString)]
  = vformat "%02d:%02d:%02d  %08x  [%s]  "
            [VInt (tm_hour t); VInt (tm_min t); VInt (tm_sec t); VInt r;
             VStr (Some proj)].
Proof.
  transitivity
    (Some (conv_d true 2 (tm_hour t) +:+ ":" +:+ conv_d true 2 (tm_min t) +:+ ":" +:+
           conv_d true 2 (tm_sec t) +:+ "  " +:+ conv_x true 8 r +:+ "  [" +:+
           conv_s 0 proj +:+ "]  " +:+ (conv_s 0 EmptyString +:+ EmptyString)));
    reflexivity.
Qed.

Lemma err_headers_agree (t : tm) (r : result_t) (proj caller loc : string) :
  vformat "%02d:%02d:%02d  %08x  [%s:%s.%s]  %s"
          [VInt (tm_hour t); VInt (tm_min t); VInt (tm_sec t); VInt r;
           VStr (Some proj); VStr (Some caller); VStr (Some loc);
           VStr (Some EmptyString)]
  = vformat "%02d:%02d:%02d  %08x  [%s:%s.%s]  "
            [VInt (tm_hour t); VInt (tm_min t); VInt (tm_sec t); VInt r;
             VStr (Some proj); VStr (Some caller); VStr (Some loc)].
Proof.
  transitivity
    (Some (conv_d true 2 (tm_hour t) +:+ ":" +:+ conv_d true 2 (tm_min t) +:+ ":" +:+
           conv_d true 2 (tm_sec t) +:+ "  " +:+ conv_x true 8 r +:+ "  [" +:+
           conv_s 0 proj +:+ ":" +:+ conv_s 0 caller +:+ "." +:+ conv_s 0 loc +:+
           "]  " +:+ (conv_s 0 EmptyString +:+ EmptyString)));
    reflexivity.
Qed.

Lemma line_ends_agree :
  vformat "%s" [VStr (Some newline)] = vformat newline [].
Proof. reflexivity. Qed.

Variables (s : state) (o : option result_config_t).
Hypothesis Hinst : installed s o.
Hypothesis Hplain :
  forall cfg, o = Some cfg -> prefix cfg = None /\ postfix cfg = None.

Abbreviation main := (resolved Lurk.result_config_default o).
Abbreviation other := (resolved Second.result_config_default o).

Lemma plain_override_fields :
  prefix main = Some EmptyString /\ postfix main = Some newline /\
  projname other = projname main /\ do_log other = do_log main /\
  do_err other = do_err main.
Proof.
  destruct o as [cfg|]; [|repeat split].
  destruct (Hplain cfg eq_refl) as [Hpre Hpost].
  cbn [resolved prefix postfix]. rewrite Hpre, Hpost. repeat split.
Qed.

Lemma log_default_copies_agree (r : result_t) (fmt : option string) (args : va_list) :
  ending (Lurk.log_default r fmt args s) = ending (Second.log_default r fmt args s).
Proof.
  destruct plain_override_fields as (Hpre & Hpost & Hname & Hlog & _).
  destruct fmt as [fmt|]; [|reflexivity].
  unfold Lurk.log_default, Second.log_default.
  run_with (get_config_do_log_resolved s o Hinst).
  run_with (second_get_config_do_log_resolved s o Hinst). rewrite Hlog.
  destruct (do_log main); cbn [negb]; [|reflexivity].
  run_with (get_config_projname_resolved s o Hinst).
  run_with (get_config_prefix_resolved s o Hinst).
  run_with (get_config_postfix_resolved s o Hinst).
  run_with (second_get_config_projname_resolved s o Hinst).
  do 2 run_with (get_time_returns s).
  rewrite Hname, Hpre, Hpost, projname_resolved_text.
  apply ending_bind_ext; [apply fprintf_same_text, log_headers_agree|].
  intros n s1. destruct (n <? 0); [reflexivity|].
  apply ending_bind_ext; [reflexivity|].
  intros n' s2. destruct (n' <? 0); [reflexivity|].
  apply ending_bind_ext; [apply fprintf_same_text, line_ends_agree|].
  intros n'' s3. now destruct (n'' <? 0).
Qed.

Lemma err_default_copies_agree (r : result_t) (caller loc fmt : option string)
  (args : va_list) :
  ending (Lurk.err_default r caller loc fmt args s)
  = ending (Second.err_default r caller loc fmt args s).
Proof.
  destruct plain_override_fields as (Hpre & Hpost & Hname & _ & Herr).
  destruct fmt as [fmt|]; [|reflexivity].
  unfold Lurk.err_default, Second.err_default.
  run_with (get_config_do_err_resolved s o Hinst).
  run_with (second_get_config_do_err_resolved s o Hinst). rewrite Herr.
  destruct (do_err main); cbn [negb]; [|reflexivity].
  do 2 run_with (get_time_returns s).
  run_with (get_config_projname_resolved s o Hinst).
  run_with (get_config_prefix_resolved s o Hinst).
  run_with (get_config_postfix_resolved s o Hinst).
  run_with (second_get_config_projname_resolved s o Hinst).
  rewrite Hname, Hpre, Hpost, projname_resolved_text.
  apply ending_bind_ext.
  { apply fprintf_same_text. destruct caller, loc; apply err_headers_agree. }
  intros n s1. destruct (n <? 0); [reflexivity|].
  apply ending_bind_ext; [reflexivity|].
  intros n' s2. destruct (n' <? 0); [reflexivity|].
  apply ending_bind_ext; [apply fprintf_same_text, line_ends_agree|].
  intros n'' s3. now destruct (n'' <? 0).
Qed.

End CopiesCompared.

(** X17: as long as the override in force sets neither prefix nor postfix
    (or there is no override), the reporters of the two copies of result.c
    cannot be told apart by their effects: on every call they end the same
    way, returning or aborting, in the same state and with the same text on
    the streams.  They differ only in the value returned. *)
Theorem copies_agree_without_prefix_postfix (s : state) (o : option result_config_t)
  (r : result_t) (caller loc fmt : option string) (args : va_list) :
  installed s o ->
  (forall cfg, o = Some cfg -> prefix cfg = None /\ postfix cfg = None) ->
  ending (Lurk.log_default r fmt args s) = ending (Second.log_default r fmt args s) /\
  ending (Lurk.err_default r caller loc fmt args s)
  = ending (Second.err_default r caller loc fmt args s).
Proof.
  intros Hinst Hplain. split.
  - now apply log_default_copies_agree with (o := o).
  - now apply err_default_copies_agree with (o := o).
Qed.

Lemma copies_agree_without_prefix_postfix_witness :
  ending (Lurk.log_default RESULT_DONE (Some "step"%string) [] state0)
  = ending (Second.log_default RESULT_DONE (Some "step"%string) [] state0) /\
  ending (Lurk.err_default RESULT_DONE None None (Some "step"%string) [] state0)
  = ending (Second.err_default RESULT_DONE None None (Some "step"%string) [] state0).
Proof.
  refine (copies_agree_without_prefix_postfix state0 None RESULT_DONE None None
            (Some "step"%string) [] (installed_none state0 eq_refl) _).
  intros cfg H. discriminate H.
Defined.



(** * The entry points and the log line of result.c *)

(** ** Digits read back *)

Section DigitsReadBack.

Lemma digit_value_char (d : N) : (d < 16)%N -> digit_value (digit_char d) = d.
Proof.
  intros Hd. rewrite <- (N2Nat.id d).
  assert (Hn : (N.to_nat d < 16)%nat) by lia.
  destruct (N.to_nat d) as [|n]; [reflexivity|].
  do 15 (destruct n as [|n]; [reflexivity|]). lia.
Qed.

Lemma digits_value_append (base : N) (a b : string) (acc : N) :
  digits_value base (a +:+ b) acc = digits_value base b (digits_value base a acc).
Proof.
  revert acc. induction a as [|c a IH]; intros acc; [reflexivity|].
  change (digits_value base (a +:+ b) (acc * base + digit_value c)
          = digits_value base b (digits_value base a (acc * base + digit_value c))).
  apply IH.
Qed.

Lemma fixed_digits_accumulate (base : N) (k : nat) (n : N) (acc : string) :
  fixed_digits base k n acc = fixed_digits base k n EmptyString +:+ acc.
Proof.
  revert n acc. induction k as [|k IH]; intros n acc; [reflexivity|].
  cbn [fixed_digits].
  rewrite (IH _ (String _ acc)), (IH _ (String _ EmptyString)), append_assoc.
  reflexivity.
Qed.

Lemma fixed_digits_value (base : N) (k : nat) (n : N) :
  (2 <= base <= 16)%N ->
  digits_value base (fixed_digits base k n EmptyString) 0
  = (n mod base ^ N.of_nat k)%N.
Proof.
  intros Hb. revert n. induction k as [|k IH]; intros n.
  - cbn [fixed_digits digits_value]. change (base ^ N.of_nat 0)%N with 1%N.
    now rewrite N.mod_1_r.
  - cbn [fixed_digits]. rewrite fixed_digits_accumulate, digits_value_append, IH.
    cbn [digits_value].
    rewrite digit_value_char
      by (assert (n mod base < base)%N by (apply N.mod_lt; lia); lia).
    replace (N.of_nat (S k)) with (N.succ (N.of_nat k)) by lia.
    rewrite N.pow_succ_r', N.Div0.mod_mul_r. lia.
Qed.

(** The eight digits of [hex8] are the 32-bit pattern of the result. *)
Lemma hex8_value (r : result_t) :
  Z.of_N (digits_value 16 (hex8 r) 0) = r mod 2 ^ 32.
Proof.
  unfold hex8. rewrite fixed_digits_value by lia.
  assert (0 <= r mod 2 ^ 32 < 2 ^ 32) by (apply Z.mod_pos_bound; lia).
  change (16 ^ N.of_nat 8)%N with (Z.to_N (2 ^ 32)).
  rewrite N.mod_small by lia. lia.
Qed.

(** The two digits of a field of the time are that number. *)
Lemma two_digits_value (z : Z) :
  0 <= z < 100 -> Z.of_N (digits_value 10 (two_digits z) 0) = z.
Proof.
  intros Hz. unfold two_digits. rewrite fixed_digits_value by lia.
  change (10 ^ N.of_nat 2)%N with 100%N.
  rewrite N.mod_small by lia. lia.
Qed.

End DigitsReadBack.

(** ** The entry points pass the result through *)

(** C1: for every result, format, caller, location and configuration,
    [lurk_log] and [lurk_err] of result.c return exactly [result].  No return
    of theirs carries another value; with the channel off they return it at
    once; with a client handler they return it when the handler returns,
    whatever the handler did to the world; with the default reporter they
    return it after the line is written. *)
Theorem entry_points_pass_result_through
  (user_log_fn : nat -> result_t -> option string -> va_list -> world ->
                 outcome world unit)
  (user_err_fn : nat -> result_t -> option string -> option string ->
                 option string -> va_list -> world -> outcome world unit)
  (r : result_t) (caller loc : option string) (fmt : string) (args : va_list) :
  returns_only r (Lurk.lurk_log user_log_fn r (Some fmt) args) /\
  returns_only r (Lurk.lurk_err user_err_fn r caller loc (Some fmt) args) /\
  forall (s : state) (o : option result_config_t),
    installed s o ->
    let cfg := resolved Lurk.result_config_default o in
    (do_log cfg = false ->
     Lurk.lurk_log user_log_fn r (Some fmt) args s = Returns r s) /\
    (do_err cfg = false ->
     Lurk.lurk_err user_err_fn r caller loc (Some fmt) args s = Returns r s) /\
    (forall (id : nat) (w : world),
        do_log cfg = true -> log_fn cfg = Some (Fn_log_user id) ->
        user_log_fn id r (Some fmt) args (env s) = Returns tt w ->
        Lurk.lurk_log user_log_fn r (Some fmt) args s
        = Returns r (mkState (result_config s) w)) /\
    (forall (id : nat) (w : world),
        do_err cfg = true -> err_fn cfg = Some (Fn_err_user id) ->
        user_err_fn id r caller loc (Some fmt) args (env s) = Returns tt w ->
        Lurk.lurk_err user_err_fn r caller loc (Some fmt) args s
        = Returns r (mkState (result_config s) w)) /\
    (forall msg : string,
        do_log cfg = true -> log_fn cfg = Some Fn_log_default ->
        tm_valid (current_time s) -> vformat fmt args = Some msg ->
        can_write 3 (stdout (env s)) ->
        exists s' : state,
          Lurk.lurk_log user_log_fn r (Some fmt) args s = Returns r s' /\
          result_config s' = result_config s /\
          stderr (env s') = stderr (env s)) /\
    (forall msg : string,
        do_err cfg = true -> err_fn cfg = Some Fn_err_default ->
        tm_valid (current_time s) -> vformat fmt args = Some msg ->
        can_write 3 (stderr (env s)) ->
        exists s' : state,
          Lurk.lurk_err user_err_fn r caller loc (Some fmt) args s = Returns r s' /\
          result_config s' = result_config s /\
          stdout (env s') = stdout (env s)).
Proof.
  split; [apply lurk_log_returns_result|].
  split; [apply lurk_err_returns_result|].
  intros s o Hinst cfg.
  split; [|split; [|split; [|split; [|split]]]].
  - intros Hoff. rewrite (lurk_log_dispatch user_log_fn s o Hinst). fold cfg.
    now rewrite Hoff.
  - intros Hoff. rewrite (lurk_err_dispatch user_err_fn s o Hinst). fold cfg.
    now rewrite Hoff.
  - intros id w Hon Hfn Hrun.
    exact (lurk_log_user_handler user_log_fn s o Hinst Hon r fmt args id w Hfn Hrun).
  - intros id w Hon Hfn Hrun.
    rewrite (lurk_err_dispatch user_err_fn s o Hinst). fold cfg. rewrite Hon, Hfn.
    cbn [Lurk.call_err_fn]. unfold bind, lift_world. now rewrite Hrun.
  - intros msg Hon Hfn Htime Hfmt Hw. eexists. split.
    + exact (lurk_log_reports user_log_fn s o Hinst Hon r fmt args msg Hfn Htime
               Hfmt Hw).
    + split; reflexivity.
  - intros msg Hon Hfn Htime Hfmt Hw. eexists. split.
    + exact (lurk_err_reports user_err_fn s o Hinst Hon Hfn Htime Hw r caller loc
               fmt args msg Hfmt).
    + split; reflexivity.
Qed.

Lemma entry_points_pass_result_through_witness :
  Lurk.lurk_log echo_log_fn RESULT_FAILURE (Some "queue empty"%string) [] state_app
  = Returns RESULT_FAILURE state_app /\
  Lurk.lurk_log echo_log_fn RESULT_FAILURE (Some "queue empty"%string) [] state_handlers
  = Returns RESULT_FAILURE (print Stdout 1 "queue empty" state_handlers) /\
  (exists s' : state,
      Lurk.lurk_log echo_log_fn RESULT_FAILURE (Some "queue empty"%string) [] state0
      = Returns RESULT_FAILURE s') /\
  (exists s' : state,
      Lurk.lurk_err echo_err_fn RESULT_FAILURE None None (Some "queue empty"%string) []
                    state0
      = Returns RESULT_FAILURE s').
Proof.
  destruct (entry_points_pass_result_through echo_log_fn echo_err_fn RESULT_FAILURE
              None None "queue empty" []) as (_ & _ & Hall).
  assert (Htime : tm_valid (current_time state0)) by (unfold tm_valid; cbn; lia).
  split; [|split; [|split]].
  - exact (proj1 (Hall state_app (Some (config_only_projname "app"))
                    (installed_some state_app 1%positive _ eq_refl eq_refl)) eq_refl).
  - exact (proj1 (proj2 (proj2 (Hall state_handlers (Some config_handlers)
                    (installed_some state_handlers 1%positive _ eq_refl eq_refl))))
             0%nat _ eq_refl eq_refl eq_refl).
  - destruct (proj1 (proj2 (proj2 (proj2 (proj2
               (Hall state0 None (installed_none state0 eq_refl))))))
               "queue empty"%string eq_refl eq_refl Htime eq_refl I)
      as (s' & Hrun & _).
    exists s'. exact Hrun.
  - destruct (proj2 (proj2 (proj2 (proj2 (proj2
               (Hall state0 None (installed_none state0 eq_refl))))))
               "queue empty"%string eq_refl eq_refl Htime eq_refl I)
      as (s' & Hrun & _).
    exists s'. exact Hrun.
Defined.

(** C2 (amended): with a null format [lurk_log] and [lurk_err] of result.c
    print nothing and return [result] at once, in the state they were
    called in.  A null format is no error: no [RESULT_BAD_PARAM] is put in
    the place of the result, so that value comes back only when it went
    in. *)
Theorem null_format_returns_result
  (user_log_fn : nat -> result_t -> option string -> va_list -> world ->
                 outcome world unit)
  (user_err_fn : nat -> result_t -> option string -> option string ->
                 option string -> va_list -> world -> outcome world unit)
  (r : result_t) (caller loc : option string) (args : va_list) (s : state) :
  Lurk.lurk_log user_log_fn r None args s = Returns r s /\
  Lurk.lurk_err user_err_fn r caller loc None args s = Returns r s /\
  (r <> RESULT_BAD_PARAM ->
   Lurk.lurk_log user_log_fn r None args s <> Returns RESULT_BAD_PARAM s /\
   Lurk.lurk_err user_err_fn r caller loc None args s <> Returns RESULT_BAD_PARAM s).
Proof.
  split; [reflexivity|]. split; [reflexivity|].
  intros Hr. split; intros H; apply Hr; now inversion H.
Qed.

Lemma null_format_returns_result_witness :
  Lurk.lurk_log echo_log_fn RESULT_FAILURE None [] state_handlers
    <> Returns RESULT_BAD_PARAM state_handlers /\
  Lurk.lurk_err echo_err_fn RESULT_FAILURE None None None [] state_handlers
    <> Returns RESULT_BAD_PARAM state_handlers.
Proof.
  refine (proj2 (proj2 (null_format_returns_result echo_log_fn echo_err_fn
                          RESULT_FAILURE None None [] state_handlers)) _).
  discriminate.
Defined.

(** C2 (as stated) fails at [result = RESULT_BAD_PARAM]: the value returned
    for a null format is then [RESULT_BAD_PARAM]. *)
Lemma null_format_may_return_bad_param :
  Lurk.lurk_log quiet_log_fn RESULT_BAD_PARAM None [] state0
  = Returns RESULT_BAD_PARAM state0 /\
  Lurk.lurk_err quiet_err_fn RESULT_BAD_PARAM None None None [] state0
  = Returns RESULT_BAD_PARAM state0.
Proof. split; reflexivity. Qed.

(** ** The log line *)

(** C6: with the log channel on and no handler of the client in force,
    [log_default] of result.c adds one text to standard output and nothing
    to standard error: the time as [HH:MM:SS], each field two decimal
    digits that read back as the field; two spaces; eight hexadecimal digits
    that read back as the 32-bit pattern of the result; two spaces; the
    project name in brackets; two spaces; then prefix, message and postfix
    with nothing in between.  [lurk_log] writes the same and returns the
    result. *)
Theorem log_line_layout
  (user_log_fn : nat -> result_t -> option string -> va_list -> world ->
                 outcome world unit)
  (s : state) (o : option result_config_t) (r : result_t)
  (fmt : string) (args : va_list) (msg : string) :
  installed s o ->
  tm_valid (current_time s) ->
  do_log (resolved Lurk.result_config_default o) = true ->
  log_fn (resolved Lurk.result_config_default o) = Some Fn_log_default ->
  vformat fmt args = Some msg ->
  can_write 3 (stdout (env s)) ->
  let cfg := resolved Lurk.result_config_default o in
  let t := current_time s in
  let line :=
    (two_digits (tm_hour t) +:+ ":" +:+ two_digits (tm_min t) +:+ ":" +:+
     two_digits (tm_sec t) +:+ "  " +:+ hex8 r +:+ "  " +:+
     "[" +:+ text (projname cfg) +:+ "]" +:+ "  " +:+
     text (prefix cfg) +:+ msg +:+ text (postfix cfg))%string in
  Lurk.log_default r (Some fmt) args s = Returns tt (print Stdout 3 line s) /\
  Lurk.lurk_log user_log_fn r (Some fmt) args s = Returns r (print Stdout 3 line s) /\
  stderr (env (print Stdout 3 line s)) = stderr (env s) /\
  written (stdout (env (print Stdout 3 line s)))
  = (written (stdout (env s)) +:+ line)%string /\
  String.length (two_digits (tm_hour t)) = 2%nat /\
  String.length (two_digits (tm_min t)) = 2%nat /\
  String.length (two_digits (tm_sec t)) = 2%nat /\
  Z.of_N (digits_value 10 (two_digits (tm_hour t)) 0) = tm_hour t /\
  Z.of_N (digits_value 10 (two_digits (tm_min t)) 0) = tm_min t /\
  Z.of_N (digits_value 10 (two_digits (tm_sec t)) 0) = tm_sec t /\
  String.length (hex8 r) = 8%nat /\
  Z.of_N (digits_value 16 (hex8 r) 0) = r mod 2 ^ 32.
Proof.
  intros Hinst Htime Hon Hfn Hfmt Hw cfg t line.
  assert (Hline : line = log_line t r (text (projname cfg)) (text (prefix cfg)) msg
                           (text (postfix cfg))).
  { unfold line, log_line, hh_mm_ss. now rewrite !append_assoc. }
  destruct Htime as (Hh & Hm & Hs).
  split.
  { rewrite Hline.
    exact (log_default_writes_line s o Hinst (conj Hh (conj Hm Hs)) r fmt args msg
             Hon Hfmt Hw). }
  split.
  { rewrite Hline.
    exact (lurk_log_reports user_log_fn s o Hinst Hon r fmt args msg Hfn
             (conj Hh (conj Hm Hs)) Hfmt Hw). }
  split; [reflexivity|]. split; [reflexivity|].
  unfold two_digits at 1 2 3. rewrite !fixed_digits_length.
  repeat (split; [reflexivity|]).
  fold t in Hh, Hm, Hs.
  split; [apply two_digits_value; lia|].
  split; [apply two_digits_value; lia|].
  split; [apply two_digits_value; lia|].
  split; [apply hex8_length | apply hex8_value].
Qed.

Lemma log_line_layout_witness :
  Lurk.log_default RESULT_FAILURE (Some "queue empty"%string) [] state_decorated
  = Returns tt
      (print Stdout 3 ("12:34:56  00000001  [app]  >> queue empty <<" +:+ newline)
             state_decorated) /\
  Lurk.lurk_log quiet_log_fn RESULT_FAILURE (Some "queue empty"%string) []
                state_decorated
  = Returns RESULT_FAILURE
      (print Stdout 3 ("12:34:56  00000001  [app]  >> queue empty <<" +:+ newline)
             state_decorated).
Proof.
  assert (Htime : tm_valid (current_time state_decorated))
    by (unfold tm_valid; cbn; lia).
  destruct (log_line_layout quiet_log_fn state_decorated (Some config_decorated)
              RESULT_FAILURE "queue empty" [] "queue empty"
              (installed_some state_decorated 1%positive _ eq_refl eq_refl)
              Htime eq_refl eq_refl eq_refl I) as (Hlog & Hentry & _).
  split; [exact Hlog | exact Hentry].
Defined.
